(** * RV50X LWM2M manager: registration, resource values, commands, alerts

    A shallow embedding of the server side of the repository:

    - [drizzle/schema.ts]: the rows of the tables [gateways],
      [lwm2m_resource_values], [lwm2m_commands] and [alerts];
    - [server/db.ts]: the query functions over those tables;
    - the tRPC router (procedures [resources.getValue], [commands.create],
      [commands.listPending], [commands.updateStatus], [alerts.resolve]);
    - [server/lwm2m.ts]: the CoAP handlers of class [LWM2MServer] and its
      in-memory [registeredClients] map;
    - [server/auth.ts] and the users table: accounts, with bcrypt and the
      random source as parameters.

    Conventions of the model.

    - A table is the list of its rows in insertion order.  An INSERT is
      refused (the driver throws, the caller's [catch] runs) when it would
      break the PRIMARY KEY of the table or, for [gateways], the UNIQUE
      constraint on [endpoint]; every other statement sent to a configured
      database goes through.  For [lwm2m_commands], whose id the router
      composes from the caller's strings, the INSERT is also refused when
      the id, the gateway id or the resource id is longer than its
      [varchar(64)] column, as MySQL does in its default strict mode.  The
      widths of the other columns and tables, collations, the rounding of a
      stored time to the precision of its column and lost connections are
      outside the model.  A SELECT without ORDER BY lists rows in insertion
      order; no theorem below depends on that order.
    - A string is the sequence of its UTF-8 bytes; on ASCII text bytes and
      characters coincide.
    - [getDb()] yields [null] when no database is configured: the field
      [database] of the world is then [None].
    - [Date.now()] and [new Date()] read the field [clock] of the world, in
      milliseconds; the clock does not advance while one handler runs.
    - [console.log] and friends are not modelled; [emit] appends to the list
      [emitted] of the world.
    - The functions of [db.ts] catch their own errors, so the [catch]
      branches of the handlers (answer 5.00) are never entered and are left
      out. *)

From Stdlib Require Import Ascii String List ZArith Bool Lia DecimalString.
Import ListNotations.
Open Scope string_scope.
Open Scope Z_scope.

(** ** JavaScript odds and ends *)

(** Template literals print [Date.now()] in decimal. *)
Definition string_of_Z (z : Z) : string := NilZero.string_of_int (Z.to_int z).

(** [if (s)] on a [string | undefined | null]: the empty string is falsy. *)
Definition truthy (o : option string) : bool :=
  match o with
  | Some s => negb (s =? "")%string
  | None => false
  end.

(** [a || b] on a possibly missing string. *)
Definition or_default (o : option string) (d : string) : string :=
  if truthy o then match o with Some s => s | None => d end else d.

(** ** drizzle/schema.ts *)

Inductive GatewayStatus := online | offline | gw_error.
Inductive CommandType := read | write | execute.
Inductive CommandStatus := pending | sent | success | failed.
Inductive AlertType :=
  | alert_offline | low_signal | high_error_rate | firmware_mismatch
  | sim_change | connectivity_lost | custom.
Inductive Severity := info | warning | critical.

Definition CommandStatus_eqb (a b : CommandStatus) : bool :=
  match a, b with
  | pending, pending | sent, sent | success, success | failed, failed => true
  | _, _ => false
  end.

Definition AlertType_eqb (a b : AlertType) : bool :=
  match a, b with
  | alert_offline, alert_offline | low_signal, low_signal
  | high_error_rate, high_error_rate | firmware_mismatch, firmware_mismatch
  | sim_change, sim_change | connectivity_lost, connectivity_lost
  | custom, custom => true
  | _, _ => false
  end.

(** Table [gateways]. *)
Module Gateway.
Record t := mk {
  id : string;
  name : string;
  endpoint : string;
  ipAddress : option string;
  status : GatewayStatus;
  lastSeen : option Z;
  serialNumber : option string;
  ownerId : string;
  createdAt : Z
}.
End Gateway.

(** Table [lwm2m_resource_values]. *)
Module ResourceValue.
Record t := mk {
  id : string;
  resourceId : string;
  gatewayId : string;
  value : string;
  timestamp : Z;
  updatedAt : Z
}.
End ResourceValue.

(** Table [lwm2m_commands]. *)
Module Command.
Record t := mk {
  id : string;
  gatewayId : string;
  resourceId : string;
  commandType : CommandType;
  value : option string;
  status : CommandStatus;
  error : option string;
  createdAt : Z;
  completedAt : option Z
}.
End Command.

(** Table [alerts]. *)
Module Alert.
Record t := mk {
  id : string;
  gatewayId : string;
  alertType : AlertType;
  severity : Severity;
  message : string;
  isResolved : bool;
  createdAt : Z;
  resolvedAt : option Z
}.
End Alert.

Record Tables := mkTables {
  gateways : list Gateway.t;
  lwm2mResourceValues : list ResourceValue.t;
  lwm2mCommands : list Command.t;
  alerts : list Alert.t
}.

Definition emptyTables : Tables := mkTables [] [] [] [].

Definition set_gateways (t : Tables) (l : list Gateway.t) : Tables :=
  mkTables l (lwm2mResourceValues t) (lwm2mCommands t) (alerts t).
Definition set_lwm2mResourceValues (t : Tables) (l : list ResourceValue.t) : Tables :=
  mkTables (gateways t) l (lwm2mCommands t) (alerts t).
Definition set_lwm2mCommands (t : Tables) (l : list Command.t) : Tables :=
  mkTables (gateways t) (lwm2mResourceValues t) l (alerts t).
Definition set_alerts (t : Tables) (l : list Alert.t) : Tables :=
  mkTables (gateways t) (lwm2mResourceValues t) (lwm2mCommands t) l.

(** ** The world: database, clock, and the state of the LWM2M server *)

(** Value type of [registeredClients]. *)
Record ClientInfo := mkClientInfo { ci_endpoint : string; ci_lastSeen : Z }.

(** Payloads of the events the server emits. *)
Inductive Event :=
  | client_registered (endpoint gatewayId version binding : string)
  | client_updated (endpoint : string)
  | client_deregistered (endpoint : string).

Record World := mkWorld {
  database : option Tables;
  clock : Z;
  registeredClients : list (string * ClientInfo);
  emitted : list Event
}.

Definition set_clock (w : World) (now : Z) : World :=
  mkWorld (database w) now (registeredClients w) (emitted w).

(** ** A state monad over the world, for the [async] functions *)

Definition M (A : Type) : Type := World -> A * World.

Definition ret {A} (a : A) : M A := fun w => (a, w).

Definition bind {A B} (c : M A) (k : A -> M B) : M B :=
  fun w => let (a, w') := c w in k a w'.

Notation "x <- c ;; k" := (bind c (fun x => k))
  (at level 61, c at next level, right associativity).
Notation "c ;;; k" := (bind c (fun _ => k))
  (at level 61, right associativity).

Definition run {A} (c : M A) (w : World) : A := fst (c w).
Definition exec {A} (c : M A) (w : World) : World := snd (c w).

(** [await getDb()]. *)
Definition getDb : M (option Tables) := fun w => (database w, w).

(** The effect of a statement that went through on the database. *)
Definition putDb (t : Tables) : M unit :=
  fun w => (tt, mkWorld (Some t) (clock w) (registeredClients w) (emitted w)).

(** [new Date()], [Date.now()]. *)
Definition now : M Z := fun w => (clock w, w).

(** [this.emit(...)]. *)
Definition emit (e : Event) : M unit :=
  fun w => (tt, mkWorld (database w) (clock w) (registeredClients w) (emitted w ++ [e])).

(** ** server/db.ts: gateways *)

Record NewGateway := mkNewGateway {
  ng_id : string;
  ng_name : string;
  ng_endpoint : string;
  ng_ipAddress : option string;
  ng_ownerId : string;
  ng_serialNumber : option string
}.

(** [db.insert(gateways).values(gateway)]: [None] when the statement throws. *)
Definition insert_gateways (t : Tables) (g : NewGateway) (clk : Z) : option Tables :=
  if existsb (fun r => (Gateway.id r =? ng_id g)%string
                       || (Gateway.endpoint r =? ng_endpoint g)%string) (gateways t)
  then None
  else Some (set_gateways t (gateways t ++
         [Gateway.mk (ng_id g) (ng_name g) (ng_endpoint g) (ng_ipAddress g)
                     offline None (ng_serialNumber g) (ng_ownerId g) clk])).

Definition createGateway (gateway : NewGateway) : M (option Gateway.t) :=
  db <- getDb ;;
  match db with
  | None => ret None
  | Some t =>
      clk <- now ;;
      match insert_gateways t gateway clk with
      | None => ret None
      | Some t' =>
          putDb t' ;;;
          ret (hd_error (filter (fun r => (Gateway.id r =? ng_id gateway)%string)
                                (gateways t')))
      end
  end.

Definition getGateway (id : string) : M (option Gateway.t) :=
  db <- getDb ;;
  match db with
  | None => ret None
  | Some t => ret (find (fun r => (Gateway.id r =? id)%string) (gateways t))
  end.

Definition getGatewayByEndpoint (endpoint : string) : M (option Gateway.t) :=
  db <- getDb ;;
  match db with
  | None => ret None
  | Some t => ret (find (fun r => (Gateway.endpoint r =? endpoint)%string) (gateways t))
  end.

Definition listGatewaysByOwner (ownerId : string) : M (list Gateway.t) :=
  db <- getDb ;;
  match db with
  | None => ret []
  | Some t => ret (filter (fun r => (Gateway.ownerId r =? ownerId)%string) (gateways t))
  end.

(** The [updates] object of [updateGatewayStatus], applied to one row. *)
Definition apply_status_update (status : GatewayStatus) (clk : Z)
    (ipAddress : option string) (r : Gateway.t) : Gateway.t :=
  Gateway.mk (Gateway.id r) (Gateway.name r) (Gateway.endpoint r)
             (if truthy ipAddress then ipAddress else Gateway.ipAddress r)
             status (Some clk)
             (Gateway.serialNumber r) (Gateway.ownerId r) (Gateway.createdAt r).

Definition updateGatewayStatus (id : string) (status : GatewayStatus)
    (ipAddress : option string) : M unit :=
  db <- getDb ;;
  match db with
  | None => ret tt
  | Some t =>
      clk <- now ;;
      putDb (set_gateways t
        (map (fun r => if (Gateway.id r =? id)%string
                       then apply_status_update status clk ipAddress r
                       else r) (gateways t)))
  end.

(** ** server/db.ts: resource values *)

Record NewResourceValue := mkNewResourceValue {
  nv_id : string;
  nv_resourceId : string;
  nv_gatewayId : string;
  nv_value : string;
  nv_timestamp : option Z
}.

(** [db.insert(lwm2mResourceValues).values(value)]; a missing [timestamp]
    takes the column default, the current time. *)
Definition insert_lwm2mResourceValues (t : Tables) (v : NewResourceValue) (clk : Z)
    : option Tables :=
  if existsb (fun r => (ResourceValue.id r =? nv_id v)%string) (lwm2mResourceValues t)
  then None
  else Some (set_lwm2mResourceValues t (lwm2mResourceValues t ++
         [ResourceValue.mk (nv_id v) (nv_resourceId v) (nv_gatewayId v) (nv_value v)
                           (match nv_timestamp v with Some ts => ts | None => clk end)
                           clk])).

Definition recordResourceValue (value : NewResourceValue) : M (option ResourceValue.t) :=
  db <- getDb ;;
  match db with
  | None => ret None
  | Some t =>
      clk <- now ;;
      match insert_lwm2mResourceValues t value clk with
      | None => ret None
      | Some t' =>
          putDb t' ;;;
          ret (hd_error (filter (fun r => (ResourceValue.id r =? nv_id value)%string)
                                (lwm2mResourceValues t')))
      end
  end.

(** [.orderBy((t) => t.timestamp)]: ascending, the direction drizzle and SQL
    take when none is given.  SQL leaves the order of rows of equal timestamp
    open; this sort puts the row inserted later first, and nothing below
    depends on it. *)
Fixpoint insert_by_timestamp (r : ResourceValue.t) (l : list ResourceValue.t)
    : list ResourceValue.t :=
  match l with
  | [] => [r]
  | x :: l' =>
      if ResourceValue.timestamp r <? ResourceValue.timestamp x
      then r :: x :: l'
      else x :: insert_by_timestamp r l'
  end.

Definition orderBy_timestamp (l : list ResourceValue.t) : list ResourceValue.t :=
  fold_right insert_by_timestamp [] l.

Definition getLatestResourceValue (resourceId : string) : M (option ResourceValue.t) :=
  db <- getDb ;;
  match db with
  | None => ret None
  | Some t =>
      let result :=
        firstn 1 (orderBy_timestamp
          (filter (fun r => (ResourceValue.resourceId r =? resourceId)%string)
                  (lwm2mResourceValues t))) in
      ret (hd_error result)
  end.

(** ** server/db.ts: commands *)

Record NewCommand := mkNewCommand {
  nc_id : string;
  nc_gatewayId : string;
  nc_resourceId : string;
  nc_commandType : CommandType;
  nc_value : option string;
  nc_status : option CommandStatus
}.

(** A continuation byte of UTF-8 has the form [10xxxxxx]. *)
Definition is_continuation (c : ascii) : bool :=
  match c with
  | Ascii _ _ _ _ _ _ b6 b7 => b7 && negb b6
  end.

(** The number of characters of a string, as MySQL counts them for a
    [varchar]: the bytes that do not continue a character. *)
Fixpoint char_length (s : string) : nat :=
  match s with
  | EmptyString => 0%nat
  | String c s' =>
      if is_continuation c then char_length s' else S (char_length s')
  end.

(** [varchar(name, { length: n })]: a longer value is refused. *)
Definition fits_varchar (n : nat) (s : string) : bool :=
  Nat.leb (char_length s) n.

(** The three [varchar(64)] columns of [lwm2m_commands]. *)
Definition command_fits (c : NewCommand) : bool :=
  fits_varchar 64 (nc_id c)
  && fits_varchar 64 (nc_gatewayId c)
  && fits_varchar 64 (nc_resourceId c).

(** [db.insert(lwm2mCommands).values(command)]: refused when the id is taken
    (PRIMARY KEY) or a value is too long for its column; a missing [status]
    takes the column default ["pending"]. *)
Definition insert_lwm2mCommands (t : Tables) (c : NewCommand) (clk : Z) : option Tables :=
  if existsb (fun r => (Command.id r =? nc_id c)%string) (lwm2mCommands t)
  then None
  else if negb (command_fits c)
  then None
  else Some (set_lwm2mCommands t (lwm2mCommands t ++
         [Command.mk (nc_id c) (nc_gatewayId c) (nc_resourceId c) (nc_commandType c)
                     (nc_value c)
                     (match nc_status c with Some s => s | None => pending end)
                     None clk None])).

Definition createCommand (command : NewCommand) : M (option Command.t) :=
  db <- getDb ;;
  match db with
  | None => ret None
  | Some t =>
      clk <- now ;;
      match insert_lwm2mCommands t command clk with
      | None => ret None
      | Some t' =>
          putDb t' ;;;
          ret (hd_error (filter (fun r => (Command.id r =? nc_id command)%string)
                                (lwm2mCommands t')))
      end
  end.

Definition getCommand (id : string) : M (option Command.t) :=
  db <- getDb ;;
  match db with
  | None => ret None
  | Some t => ret (find (fun r => (Command.id r =? id)%string) (lwm2mCommands t))
  end.

(** The [updates] object of [updateCommandStatus], applied to one row. *)
Definition apply_command_update (status : CommandStatus) (error : option string)
    (clk : Z) (r : Command.t) : Command.t :=
  Command.mk (Command.id r) (Command.gatewayId r) (Command.resourceId r)
             (Command.commandType r) (Command.value r)
             status
             (if truthy error then error else Command.error r)
             (Command.createdAt r)
             (match status with
              | success | failed => Some clk
              | _ => Command.completedAt r
              end).

Definition updateCommandStatus (id : string) (status : CommandStatus)
    (error : option string) : M unit :=
  db <- getDb ;;
  match db with
  | None => ret tt
  | Some t =>
      clk <- now ;;
      putDb (set_lwm2mCommands t
        (map (fun r => if (Command.id r =? id)%string
                       then apply_command_update status error clk r
                       else r) (lwm2mCommands t)))
  end.

Definition listPendingCommands (gatewayId : string) : M (list Command.t) :=
  db <- getDb ;;
  match db with
  | None => ret []
  | Some t =>
      ret (filter (fun r => (Command.gatewayId r =? gatewayId)%string
                            && CommandStatus_eqb (Command.status r) pending)
                  (lwm2mCommands t))
  end.

(** ** server/db.ts: alerts *)

Record NewAlert := mkNewAlert {
  na_id : string;
  na_gatewayId : string;
  na_alertType : AlertType;
  na_severity : Severity;
  na_message : string
}.

(** [db.insert(alerts).values(alert)]; [isResolved] defaults to [false]. *)
Definition insert_alerts (t : Tables) (a : NewAlert) (clk : Z) : option Tables :=
  if existsb (fun r => (Alert.id r =? na_id a)%string) (alerts t)
  then None
  else Some (set_alerts t (alerts t ++
         [Alert.mk (na_id a) (na_gatewayId a) (na_alertType a) (na_severity a)
                   (na_message a) false clk None])).

Definition createAlert (alert : NewAlert) : M (option Alert.t) :=
  db <- getDb ;;
  match db with
  | None => ret None
  | Some t =>
      clk <- now ;;
      match insert_alerts t alert clk with
      | None => ret None
      | Some t' =>
          putDb t' ;;;
          ret (hd_error (filter (fun r => (Alert.id r =? na_id alert)%string) (alerts t')))
      end
  end.

Definition listAlerts (gatewayId : option string) (unresolved : bool) : M (list Alert.t) :=
  db <- getDb ;;
  match db with
  | None => ret []
  | Some t =>
      let c1 := fun r : Alert.t =>
        if truthy gatewayId
        then match gatewayId with
             | Some g => (Alert.gatewayId r =? g)%string
             | None => true
             end
        else true in
      let c2 := fun r : Alert.t =>
        if unresolved then Bool.eqb (Alert.isResolved r) false else true in
      ret (filter (fun r => c1 r && c2 r) (alerts t))
  end.

(** The [set({ isResolved: true, resolvedAt: new Date() })] of [resolveAlert]. *)
Definition apply_resolve (clk : Z) (r : Alert.t) : Alert.t :=
  Alert.mk (Alert.id r) (Alert.gatewayId r) (Alert.alertType r) (Alert.severity r)
           (Alert.message r) true (Alert.createdAt r) (Some clk).

Definition resolveAlert (alertId : string) : M unit :=
  db <- getDb ;;
  match db with
  | None => ret tt
  | Some t =>
      clk <- now ;;
      putDb (set_alerts t
        (map (fun r => if (Alert.id r =? alertId)%string then apply_resolve clk r else r)
             (alerts t)))
  end.

(** ** The tRPC router (procedure bodies; authentication is outside the model) *)

Inductive TRPCError :=
  | INTERNAL_SERVER_ERROR (message : string)
  | NOT_FOUND.

Module resources.
(** [resources.getValue]. *)
Definition getValue (resourceId gatewayId : string) : M (option ResourceValue.t) :=
  getLatestResourceValue resourceId.

End resources.

(** Router [gateways]; [userId] stands for [ctx.user.id].  The [zod] schema
    of [create] turns away an empty [name] or [endpoint] before the body
    runs; the body is what is modelled. *)
Module gatewaysRouter.
Record createInput := mkCreateInput {
  name : string;
  endpoint : string;
  ipAddress : option string;
  serialNumber : option string
}.

(** [gateways.get]. *)
Definition get (id : string) : M (TRPCError + Gateway.t) :=
  gateway <- getGateway id ;;
  match gateway with
  | None => ret (inl NOT_FOUND)
  | Some g => ret (inr g)
  end.

(** [gateways.create]. *)
Definition create (userId : string) (input : createInput) : M (TRPCError + Gateway.t) :=
  clk <- now ;;
  let gatewayId := "gw-" ++ endpoint input ++ "-" ++ string_of_Z clk in
  gateway <- createGateway
    (mkNewGateway gatewayId (name input) (endpoint input) (ipAddress input)
                  userId (serialNumber input)) ;;
  match gateway with
  | None => ret (inl (INTERNAL_SERVER_ERROR "Failed to create gateway"))
  | Some g => ret (inr g)
  end.

(** [gateways.updateStatus]; the result is [{ success: true }]. *)
Definition updateStatus (id : string) (status : GatewayStatus)
    (ipAddress : option string) : M bool :=
  updateGatewayStatus id status ipAddress ;;;
  ret true.

(** [gateways.list]. *)
Definition list (userId : string) := listGatewaysByOwner userId.
End gatewaysRouter.

Module commands.
Record createInput := mkCreateInput {
  gatewayId : string;
  resourceId : string;
  commandType : CommandType;
  value : option string
}.

(** [commands.create]. *)
Definition create (input : createInput) : M (TRPCError + Command.t) :=
  clk <- now ;;
  let commandId :=
    "cmd-" ++ gatewayId input ++ "-" ++ resourceId input ++ "-" ++ string_of_Z clk in
  command <- createCommand
    (mkNewCommand commandId (gatewayId input) (resourceId input)
                  (commandType input) (value input) None) ;;
  match command with
  | None => ret (inl (INTERNAL_SERVER_ERROR "Failed to create command"))
  | Some c => ret (inr c)
  end.

(** [commands.get]. *)
Definition get (id : string) : M (TRPCError + Command.t) :=
  command <- getCommand id ;;
  match command with
  | None => ret (inl NOT_FOUND)
  | Some c => ret (inr c)
  end.

(** [commands.listPending]. *)
Definition listPending (gatewayId : string) : M (list Command.t) :=
  listPendingCommands gatewayId.

(** [commands.updateStatus]; the result is [{ success: true }]. *)
Definition updateStatus (id : string) (status : CommandStatus) (error : option string)
    : M bool :=
  updateCommandStatus id status error ;;;
  ret true.
End commands.

Module alertsRouter.
(** [alerts.resolve]; the result is [{ success: true }]. *)
Definition resolve (id : string) : M bool :=
  resolveAlert id ;;;
  ret true.

(** [alerts.list]; a missing [unresolved] takes the default [false]. *)
Definition list (gatewayId : option string) (unresolved : option bool) :=
  listAlerts gatewayId (match unresolved with Some b => b | None => false end).
End alertsRouter.

(** ** server/lwm2m.ts *)

(** A JavaScript [Map] from endpoints to client records: an association list
    in insertion order; [set] on a present key overwrites in place. *)
Module JsMap.
Definition t := list (string * ClientInfo).

Fixpoint set (k : string) (v : ClientInfo) (m : t) : t :=
  match m with
  | [] => [(k, v)]
  | (k', v') :: m' =>
      if (k' =? k)%string then (k, v) :: m' else (k', v') :: set k v m'
  end.

Definition delete (k : string) (m : t) : t :=
  filter (fun kv => negb (fst kv =? k)%string) m.

Definition has (k : string) (m : t) : bool :=
  existsb (fun kv => (fst kv =? k)%string) m.

Definition keys (m : t) : list string := map fst m.
End JsMap.

(** [str.split(sep)] for a one-character separator. *)
Fixpoint split (sep : Ascii.ascii) (s : string) : list string :=
  match s with
  | EmptyString => [EmptyString]
  | String c s' =>
      if Ascii.eqb c sep then EmptyString :: split sep s'
      else match split sep s' with
           | x :: xs => String c x :: xs
           | [] => [String c EmptyString]
           end
  end.

(** [path.split("/").filter((p) => p)]. *)
Definition pathParts_of (path : string) : list string :=
  filter (fun p => negb (p =? "")%string) (split "/"%char path).

Record RsInfo := mkRsInfo { address : string; port : Z }.

(** The request of the [coap] package, as far as the handlers read it. *)
Record Request := mkRequest {
  method : string;
  url : string;
  rsinfo : option RsInfo
}.

(** What a handler leaves in [res]: the code and the options set; the payload
    handed to [res.end] is not tracked. *)
Record Response := mkResponse {
  code : string;
  options : list (string * string)
}.

Definition registeredClients_set (k : string) (v : ClientInfo) : M unit :=
  fun w => (tt, mkWorld (database w) (clock w)
                        (JsMap.set k v (registeredClients w)) (emitted w)).

Definition registeredClients_delete (k : string) : M unit :=
  fun w => (tt, mkWorld (database w) (clock w)
                        (JsMap.delete k (registeredClients w)) (emitted w)).

Section LWM2MServer.

(** [new URL(`coap://localhost${req.url}`).searchParams.get(name)], the
    platform's URL parser, as a function of [req.url] and [name]. *)
Variable searchParams_get : string -> string -> option string.

Definition handleRegistration (req : Request) : M Response :=
  let endpoint := searchParams_get (url req) "ep" in
  let lifetime := or_default (searchParams_get (url req) "lt") "86400" in
  let version := or_default (searchParams_get (url req) "lwm2m") "1.0.0" in
  let binding := or_default (searchParams_get (url req) "b") "U" in
  match endpoint with
  | None => ret (mkResponse "4.00" [])
  | Some endpoint =>
      if (endpoint =? "")%string then ret (mkResponse "4.00" [])
      else
        let remoteAddress := or_default (option_map address (rsinfo req)) "unknown" in
        found <- getGatewayByEndpoint endpoint ;;
        gateway <- match found with
                   | Some g => ret (Some g)
                   | None =>
                       clk <- now ;;
                       createGateway
                         (mkNewGateway ("gw-" ++ endpoint ++ "-" ++ string_of_Z clk)
                                       endpoint endpoint (Some remoteAddress)
                                       "system" (Some endpoint))
                   end ;;
        match gateway with
        | Some g =>
            updateGatewayStatus (Gateway.id g) online (Some remoteAddress) ;;;
            clk <- now ;;
            registeredClients_set endpoint (mkClientInfo endpoint clk) ;;;
            emit (client_registered endpoint (Gateway.id g) version binding) ;;;
            ret (mkResponse "2.01" [("Location-Path", "/rd/" ++ Gateway.id g)])
        | None => ret (mkResponse "5.00" [])
        end
  end.

Definition handleUpdate (req : Request) : M Response :=
  let path := if (url req =? "")%string then "/" else url req in
  let pathParts := pathParts_of path in
  if (Nat.ltb (length pathParts) 2) || negb (nth 0 pathParts "" =? "rd")%string
  then ret (mkResponse "4.04" [])
  else
    match searchParams_get (url req) "ep" with
    | None => ret (mkResponse "4.00" [])
    | Some endpoint =>
        if (endpoint =? "")%string then ret (mkResponse "4.00" [])
        else
          gateway <- getGatewayByEndpoint endpoint ;;
          match gateway with
          | Some g =>
              updateGatewayStatus (Gateway.id g) online None ;;;
              clk <- now ;;
              registeredClients_set endpoint (mkClientInfo endpoint clk) ;;;
              emit (client_updated endpoint) ;;;
              ret (mkResponse "2.04" [])
          | None => ret (mkResponse "4.04" [])
          end
    end.

Definition handleDeregistration (req : Request) : M Response :=
  match searchParams_get (url req) "ep" with
  | None => ret (mkResponse "4.00" [])
  | Some endpoint =>
      if (endpoint =? "")%string then ret (mkResponse "4.00" [])
      else
        gateway <- getGatewayByEndpoint endpoint ;;
        match gateway with
        | Some g =>
            updateGatewayStatus (Gateway.id g) offline None ;;;
            registeredClients_delete endpoint ;;;
            emit (client_deregistered endpoint) ;;;
            ret (mkResponse "2.02" [])
        | None => ret (mkResponse "4.04" [])
        end
  end.

Definition handleResourceRequest (req : Request) : M Response :=
  let method := if (method req =? "")%string then "GET" else method req in
  let path := if (url req =? "")%string then "/" else url req in
  let pathParts := pathParts_of path in
  if Nat.ltb (length pathParts) 2 then ret (mkResponse "4.04" [])
  else if (method =? "GET")%string
       then ret (mkResponse "2.05" [("Content-Format", "text/plain")])
  else if (method =? "PUT")%string then ret (mkResponse "2.04" [])
  else ret (mkResponse "4.05" []).

Definition handleCoapRequest (req : Request) : M Response :=
  let path := if (url req =? "")%string then "/" else url req in
  let method := if (method req =? "")%string then "GET" else method req in
  if prefix "/rd" path then
    if (method =? "POST")%string then handleRegistration req
    else if (method =? "PUT")%string then handleUpdate req
    else if (method =? "DELETE")%string then handleDeregistration req
    else ret (mkResponse "4.04" [])
  else handleResourceRequest req.

End LWM2MServer.

Definition getRegisteredClients (w : World) : list string :=
  JsMap.keys (registeredClients w).

Definition isClientRegistered (endpoint : string) (w : World) : bool :=
  JsMap.has endpoint (registeredClients w).

(** ** The users table ([drizzle/schema.ts], [server/db.ts]) and [server/auth.ts] *)

Inductive Role := role_user | role_admin.

(** Table [users]: [id] is the primary key, [username] and [email] are
    UNIQUE ([email] may be NULL, any number of times). *)
Module User.
Record t := mk {
  id : string;
  username : string;
  email : option string;
  passwordHash : string;
  name : option string;
  role : Role;
  isActive : bool;
  createdAt : option Z;
  updatedAt : option Z;
  lastSignedIn : option Z
}.
End User.

Record AuthUser := mkAuthUser {
  au_id : string;
  au_username : string;
  au_email : option string
}.

(** The state [auth.ts] works on: the world above, which answers [getDb()]
    and tells the time, the users table of that database, and the number of
    random values drawn so far. *)
Record AuthWorld := mkAuthWorld {
  world : World;
  users : list User.t;
  drawn : nat
}.

Definition set_users (aw : AuthWorld) (l : list User.t) : AuthWorld :=
  mkAuthWorld (world aw) l (drawn aw).

(** [db.update(users).set(...).where(cond)].  The callers below write a
    UNIQUE column only after checking that the value is free, so on a table
    that has its keys no UPDATE here can break one. *)
Definition update_users (cond : User.t -> bool) (f : User.t -> User.t)
    (aw : AuthWorld) : AuthWorld :=
  set_users aw (map (fun u => if cond u then f u else u) (users aw)).

Definition with_passwordHash (h : string) (clk : Z) (u : User.t) : User.t :=
  User.mk (User.id u) (User.username u) (User.email u) h (User.name u) (User.role u)
          (User.isActive u) (User.createdAt u) (Some clk) (User.lastSignedIn u).

Definition with_username (n : string) (clk : Z) (u : User.t) : User.t :=
  User.mk (User.id u) n (User.email u) (User.passwordHash u) (User.name u) (User.role u)
          (User.isActive u) (User.createdAt u) (Some clk) (User.lastSignedIn u).

Definition with_lastSignedIn (clk : Z) (u : User.t) : User.t :=
  User.mk (User.id u) (User.username u) (User.email u) (User.passwordHash u) (User.name u)
          (User.role u) (User.isActive u) (User.createdAt u) (User.updatedAt u) (Some clk).

Definition with_isActive (b : bool) (u : User.t) : User.t :=
  User.mk (User.id u) (User.username u) (User.email u) (User.passwordHash u) (User.name u)
          (User.role u) b (User.createdAt u) (User.updatedAt u) (User.lastSignedIn u).

Definition email_is (e : string) (u : User.t) : bool :=
  match User.email u with
  | Some e' => (e' =? e)%string
  | None => false
  end.

(** [db.insert(users).values(u)]: [None] when a key is taken. *)
Definition insert_users (aw : AuthWorld) (u : User.t) : option AuthWorld :=
  if existsb (fun r => (User.id r =? User.id u)%string
                       || (User.username r =? User.username u)%string
                       || match User.email u with
                          | Some e => email_is e r
                          | None => false
                          end) (users aw)
  then None
  else Some (set_users aw (users aw ++ [u])).

(** [getUserByUsername] of [db.ts]. *)
Definition getUserByUsername (username : string) (aw : AuthWorld) : option User.t :=
  match database (world aw) with
  | None => None
  | Some _ => find (fun u => (User.username u =? username)%string) (users aw)
  end.

(** [deactivateUser] of [db.ts]. *)
Definition deactivateUser (id : string) (aw : AuthWorld) : AuthWorld :=
  match database (world aw) with
  | None => aw
  | Some _ => update_users (fun u => (User.id u =? id)%string) (with_isActive false) aw
  end.

(** [listUsers] of [db.ts]: the active users. *)
Definition listUsers (aw : AuthWorld) : list User.t :=
  match database (world aw) with
  | None => []
  | Some _ => filter (fun u => Bool.eqb (User.isActive u) true) (users aw)
  end.

Section Auth.

(** [bcrypt.hash(password, SALT_ROUNDS)] on the [n]-th draw of randomness,
    [bcrypt.compare(password, hash)], and
    [crypto.randomBytes(k).toString('hex')] on the [n]-th draw. *)
Variable bcrypt_hash : string -> nat -> string.
Variable bcrypt_compare : string -> string -> bool.
Variable randomHex : nat -> nat -> string.

Definition hashPassword (password : string) (aw : AuthWorld) : string * AuthWorld :=
  (bcrypt_hash password (drawn aw), mkAuthWorld (world aw) (users aw) (S (drawn aw))).

Definition verifyPassword (password hash : string) : bool :=
  bcrypt_compare password hash.

Definition initializeAdmin (username password : string) (email : option string)
    (aw : AuthWorld) : bool * AuthWorld :=
  match database (world aw) with
  | None => (false, aw)
  | Some _ =>
      match firstn 1 (users aw) with
      | _ :: _ => (false, aw)
      | [] =>
          let (passwordHash, aw1) := hashPassword password aw in
          let adminId := "admin-" ++ randomHex 8 (drawn aw1) in
          let aw2 := mkAuthWorld (world aw1) (users aw1) (S (drawn aw1)) in
          let clk := clock (world aw) in
          match insert_users aw2
                  (User.mk adminId username (if truthy email then email else None)
                           passwordHash (Some "Administrator") role_admin true
                           (Some clk) (Some clk) None) with
          | Some aw3 => (true, aw3)
          | None => (false, aw2)
          end
      end
  end.

Definition authenticateUser (username password : string) (aw : AuthWorld)
    : option AuthUser * AuthWorld :=
  match database (world aw) with
  | None => (None, aw)
  | Some _ =>
      match find (fun u => (User.username u =? username)%string) (users aw) with
      | None => (None, aw)
      | Some user =>
          if negb (User.isActive user) then (None, aw)
          else if negb (verifyPassword password (User.passwordHash user)) then (None, aw)
          else (Some (mkAuthUser (User.id user) (User.username user) (User.email user)),
                update_users (fun u => (User.id u =? User.id user)%string)
                             (with_lastSignedIn (clock (world aw))) aw)
      end
  end.

Definition changePassword (userId currentPassword newPassword : string) (aw : AuthWorld)
    : bool * AuthWorld :=
  match database (world aw) with
  | None => (false, aw)
  | Some _ =>
      match find (fun u => (User.id u =? userId)%string) (users aw) with
      | None => (false, aw)
      | Some user =>
          if negb (verifyPassword currentPassword (User.passwordHash user)) then (false, aw)
          else
            let (newPasswordHash, aw1) := hashPassword newPassword aw in
            (true, update_users (fun u => (User.id u =? userId)%string)
                                (with_passwordHash newPasswordHash (clock (world aw))) aw1)
      end
  end.

Definition changeUsername (userId newUsername : string) (aw : AuthWorld)
    : bool * AuthWorld :=
  match database (world aw) with
  | None => (false, aw)
  | Some _ =>
      match find (fun u => (User.username u =? newUsername)%string) (users aw) with
      | Some _ => (false, aw)
      | None =>
          (true, update_users (fun u => (User.id u =? userId)%string)
                              (with_username newUsername (clock (world aw))) aw)
      end
  end.

Definition resetPasswordWithToken (email resetToken newPassword : string) (aw : AuthWorld)
    : bool * AuthWorld :=
  match database (world aw) with
  | None => (false, aw)
  | Some _ =>
      match find (email_is email) (users aw) with
      | None => (false, aw)
      | Some _ =>
          let (newPasswordHash, aw1) := hashPassword newPassword aw in
          (true, update_users (email_is email)
                              (with_passwordHash newPasswordHash (clock (world aw))) aw1)
      end
  end.

Definition getUserById (userId : string) (aw : AuthWorld) : option AuthUser :=
  match database (world aw) with
  | None => None
  | Some _ =>
      match find (fun u => (User.id u =? userId)%string) (users aw) with
      | None => None
      | Some user => Some (mkAuthUser (User.id user) (User.username user) (User.email user))
      end
  end.

End Auth.

(** ** Harness for the examples *)

(** [cut sep s]: the text before the first [sep] and, when there is one, the
    text after it. *)
Fixpoint cut (sep : ascii) (s : string) : string * option string :=
  match s with
  | EmptyString => (EmptyString, None)
  | String c s' =>
      if Ascii.eqb c sep then (EmptyString, Some s')
      else let (a, b) := cut sep s' in (String c a, b)
  end.

(** A reader of query strings for the examples: the text after the first
    [?], cut at every [&], each piece cut at its first [=].  On URLs without
    escapes, [+] or fragment, as the examples use, this is what
    [URLSearchParams.get] returns. *)
Definition plain_searchParams_get (u name : string) : option string :=
  match snd (cut "?"%char u) with
  | None => None
  | Some q =>
      match find (fun kv => (fst kv =? name)%string)
                 (map (cut "="%char) (split "&"%char q)) with
      | Some (_, Some v) => Some v
      | Some (_, None) => Some ""
      | None => None
      end
  end.

(** The server takes request [req] at time [t]. *)
Definition serve (sp : string -> string -> option string)
    (w : World) (tr : Z * Request) : World :=
  exec (handleCoapRequest sp (snd tr)) (set_clock w (fst tr)).

(** The paths [handleUpdate] lets through: at least two non-empty segments,
    the first of them [rd]. *)
Definition update_path_ok (u : string) : bool :=
  let pathParts := pathParts_of (if (u =? "")%string then "/" else u) in
  negb (Nat.ltb (length pathParts) 2 || negb (nth 0 pathParts "" =? "rd")%string).

(** [req] is a deregistration of endpoint [E]: a DELETE under [/rd] whose
    [ep] parameter is [E]. *)
Definition is_deregistration_of (sp : string -> string -> option string)
    (E : string) (req : Request) : bool :=
  prefix "/rd" (if (url req =? "")%string then "/" else url req)
  && ((if (method req =? "")%string then "GET" else method req) =? "DELETE")%string
  && match sp (url req) "ep" with
     | Some ep => (ep =? E)%string
     | None => false
     end.

(** A world with an empty database and nobody registered. *)
Definition freshWorld : World := mkWorld (Some emptyTables) 0 [] [].

(** The unresolved alerts of one type for one gateway. *)
Definition unresolvedAlerts (gatewayId : string) (ty : AlertType) (t : Tables)
    : list Alert.t :=
  filter (fun r => (Alert.gatewayId r =? gatewayId)%string
                   && AlertType_eqb (Alert.alertType r) ty
                   && negb (Alert.isResolved r)) (alerts t).

(** The row of alert [id], read from the table. *)
Definition alertRow (id : string) (w : World) : option Alert.t :=
  match database w with
  | Some t => find (fun r => (Alert.id r =? id)%string) (alerts t)
  | None => None
  end.

(** Computation [c], started when the clock shows [t]. *)
Definition at_time {A} (t : Z) (c : M A) : M A := fun w => c (set_clock w t).

(** A sequence of calls of [commands.updateStatus] on one command, each with
    the time at which it is made. *)
Fixpoint updateStatus_all (id : string) (us : list (Z * CommandStatus * option string))
    : M unit :=
  match us with
  | [] => ret tt
  | (t, s, e) :: us' =>
      at_time t (commands.updateStatus id s e) ;;; updateStatus_all id us'
  end.

(** Worlds and inputs of the examples. *)
Definition from_device : option RsInfo := Some (mkRsInfo "10.0.0.7" 5683).

(** Endpoint [dev1] has registered at time 0 ... *)
Definition world_registered : World :=
  serve plain_searchParams_get freshWorld
        (0, mkRequest "POST" "/rd?ep=dev1&lt=60" from_device).

(** ... and deregistered at time 1000. *)
Definition world_deregistered : World :=
  serve plain_searchParams_get world_registered
        (1000, mkRequest "DELETE" "/rd?ep=dev1" from_device).

Definition reboot_dev1 : commands.createInput :=
  commands.mkCreateInput "gw-dev1-0" "res-1" write (Some "reboot").

Definition reboot_dev1_row : Command.t :=
  Command.mk "cmd-gw-dev1-0-res-1-2000" "gw-dev1-0" "res-1" write (Some "reboot")
             pending None 2000 None.

Definition offline_alert (id : string) : NewAlert :=
  mkNewAlert id "gw-dev1-0" alert_offline warning "gateway offline".

Definition offline_alert_row (id : string) (createdAt : Z) : Alert.t :=
  Alert.mk id "gw-dev1-0" alert_offline warning "gateway offline" false createdAt None.

(** The gateways table after the UPDATE of [updateGatewayStatus]. *)
Definition gateways_after_status (id : string) (status : GatewayStatus) (clk : Z)
    (ipAddress : option string) (l : list Gateway.t) : list Gateway.t :=
  map (fun r => if (Gateway.id r =? id)%string
                then apply_status_update status clk ipAddress r
                else r) l.

(** The row a registration creates for an endpoint it does not know. *)
Definition registration_row (endpoint remoteAddress : string) (clk : Z) : Gateway.t :=
  Gateway.mk ("gw-" ++ endpoint ++ "-" ++ string_of_Z clk) endpoint endpoint
             (Some remoteAddress) offline None (Some endpoint) "system" clk.

(** [req.rsinfo?.address || "unknown"]. *)
Definition remoteAddress_of (req : Request) : string :=
  or_default (option_map address (rsinfo req)) "unknown".

(** Does character [c] occur in [s]? *)
Fixpoint occurs (c : ascii) (s : string) : bool :=
  match s with
  | EmptyString => false
  | String c' s' => Ascii.eqb c' c || occurs c s'
  end.

(** The keys of the gateways table are what the schema says: no two rows
    share an [id] or an [endpoint]. *)
Definition gateways_wf (t : Tables) : Prop :=
  NoDup (map Gateway.id (gateways t)) /\ NoDup (map Gateway.endpoint (gateways t)).

(** The registry agrees with the database: no endpoint is twice in the map,
    the gateways table has its keys, and every endpoint in the map has a
    gateway row that is online. *)
Definition registry_consistent (w : World) : Prop :=
  NoDup (getRegisteredClients w)
  /\ match database w with
     | Some t =>
         gateways_wf t
         /\ forall E, isClientRegistered E w = true ->
                      exists g, run (getGatewayByEndpoint E) w = Some g
                                /\ Gateway.status g = online
     | None => True
     end.

(** The row [createGateway] inserts: status and [lastSeen] take the column
    defaults. *)
Definition gateway_row (g : NewGateway) (clk : Z) : Gateway.t :=
  Gateway.mk (ng_id g) (ng_name g) (ng_endpoint g) (ng_ipAddress g)
             offline None (ng_serialNumber g) (ng_ownerId g) clk.

(** What one CoAP request can do to the world: nothing; set the gateway of
    an endpoint online and enter the endpoint in the map (registration of a
    known endpoint, update); create the gateway first (registration of a new
    endpoint); set the gateway offline and take the endpoint out of the map
    (deregistration). *)
Inductive CoapStep (w : World) : World -> Prop :=
  | step_none : CoapStep w w
  | step_online (t : Tables) (E : string) (g : Gateway.t) (ip : option string) (e : Event) :
      E <> "" ->
      database w = Some t ->
      find (fun r => (Gateway.endpoint r =? E)%string) (gateways t) = Some g ->
      CoapStep w
        (mkWorld (Some (set_gateways t
                    (gateways_after_status (Gateway.id g) online (clock w) ip (gateways t))))
                 (clock w)
                 (JsMap.set E (mkClientInfo E (clock w)) (registeredClients w))
                 (emitted w ++ [e]))
  | step_created (t : Tables) (E addr : string) (e : Event) :
      E <> "" ->
      database w = Some t ->
      find (fun r => (Gateway.endpoint r =? E)%string) (gateways t) = None ->
      existsb (fun r => (Gateway.id r =? Gateway.id (registration_row E addr (clock w)))%string)
              (gateways t) = false ->
      CoapStep w
        (mkWorld (Some (set_gateways t
                    (gateways_after_status
                       (Gateway.id (registration_row E addr (clock w))) online (clock w)
                       (Some addr) (gateways t ++ [registration_row E addr (clock w)]))))
                 (clock w)
                 (JsMap.set E (mkClientInfo E (clock w)) (registeredClients w))
                 (emitted w ++ [e]))
  | step_offline (t : Tables) (E : string) (g : Gateway.t) (e : Event) :
      E <> "" ->
      database w = Some t ->
      find (fun r => (Gateway.endpoint r =? E)%string) (gateways t) = Some g ->
      CoapStep w
        (mkWorld (Some (set_gateways t
                    (gateways_after_status (Gateway.id g) offline (clock w) None (gateways t))))
                 (clock w)
                 (JsMap.delete E (registeredClients w))
                 (emitted w ++ [e])).

(** Stand-ins for bcrypt and the random source in the examples: the hash of
    a password is the password, and every draw gives the same bytes. *)
Definition plain_hash (password : string) (n : nat) : string := password.
Definition plain_compare (password hash : string) : bool := (password =? hash)%string.
Definition fixed_randomHex (k n : nat) : string := "00c0ffee00c0ffee".

Definition admin_row : User.t :=
  User.mk "admin-00c0ffee00c0ffee" "admin" (Some "admin@example.org") "correct horse"
          (Some "Administrator") role_admin true (Some 0) (Some 0) None.

(** The accounts after [initializeAdmin] on an empty table. *)
Definition accounts_world : AuthWorld :=
  snd (initializeAdmin plain_hash fixed_randomHex "admin" "correct horse"
                       (Some "admin@example.org") (mkAuthWorld freshWorld [] 0)).

(** The gateway of [dev1] while registered, and after its deregistration. *)
Definition dev1_online : Gateway.t :=
  Gateway.mk "gw-dev1-0" "dev1" "dev1" (Some "10.0.0.7") online (Some 0)
             (Some "dev1") "system" 0.

Definition dev1_offline : Gateway.t :=
  Gateway.mk "gw-dev1-0" "dev1" "dev1" (Some "10.0.0.7") offline (Some 1000)
             (Some "dev1") "system" 0.

Definition example_traffic : list (Z * Request) :=
  [ (10, mkRequest "POST" "/rd?ep=dev1&lt=60" from_device);
    (20, mkRequest "POST" "/rd?ep=dev2&lt=60" from_device);
    (30, mkRequest "PUT" "/rd/gw-dev2-20?ep=dev2" from_device);
    (40, mkRequest "DELETE" "/rd?ep=dev1" from_device);
    (50, mkRequest "GET" "/3/0" from_device) ].

Definition signal_at (id : string) (ts : Z) : NewResourceValue :=
  mkNewResourceValue id "res-1" "gw-dev1-0" "-71" (Some ts).

(** * Properties *)

(** ** Lists, tables and the map *)

Lemma find_map_preserved {A} (p : A -> bool) (f : A -> A) (l : list A) :
  (forall x, p (f x) = p x) ->
  find p (map f l) = option_map f (find p l).
Proof.
  intros Hp. induction l as [|a l IH]; simpl; [reflexivity|].
  rewrite Hp. destruct (p a); [reflexivity|exact IH].
Qed.

Lemma find_app_fresh {A} (p : A -> bool) (l : list A) (x : A) :
  find p l = None -> p x = true -> find p (l ++ [x]) = Some x.
Proof.
  intros Hn Hx. induction l as [|a l IH]; simpl in *.
  - now rewrite Hx.
  - destruct (p a); [discriminate|auto].
Qed.

Lemma existsb_false_find {A} (p : A -> bool) (l : list A) :
  existsb p l = false -> find p l = None.
Proof.
  induction l as [|a l IH]; simpl; [reflexivity|].
  destruct (p a); simpl; [discriminate|exact IH].
Qed.

Lemma hd_error_filter {A} (p : A -> bool) (l : list A) :
  hd_error (filter p l) = find p l.
Proof.
  induction l as [|a l IH]; simpl; [reflexivity|].
  destruct (p a); [reflexivity|exact IH].
Qed.

Lemma existsb_or_false {A} (p q : A -> bool) (l : list A) :
  existsb (fun x => p x || q x) l = false ->
  existsb p l = false /\ existsb q l = false.
Proof.
  induction l as [|a l IH]; simpl; [auto|].
  destruct (p a), (q a); simpl; try discriminate. exact IH.
Qed.

Lemma JsMap_has_set (k : string) (v : ClientInfo) (m : JsMap.t) :
  JsMap.has k (JsMap.set k v m) = true.
Proof.
  induction m as [|[k' v'] m IH]; simpl.
  - now rewrite String.eqb_refl.
  - destruct (k' =? k)%string eqn:E; simpl.
    + now rewrite String.eqb_refl.
    + unfold JsMap.has in IH. rewrite E. exact IH.
Qed.

Lemma JsMap_has_set_other (k k' : string) (v : ClientInfo) (m : JsMap.t) :
  JsMap.has k m = true -> JsMap.has k (JsMap.set k' v m) = true.
Proof.
  induction m as [|[k0 v0] m IH]; simpl; [discriminate|].
  intros H. destruct (k0 =? k')%string eqn:E; simpl.
  - apply String.eqb_eq in E. subst k0.
    destruct (k' =? k)%string; [reflexivity|exact H].
  - destruct (k0 =? k)%string; [reflexivity|]. apply IH. exact H.
Qed.

Lemma JsMap_has_delete_other (k k' : string) (m : JsMap.t) :
  k' <> k -> JsMap.has k m = true -> JsMap.has k (JsMap.delete k' m) = true.
Proof.
  intros Hne. induction m as [|[k0 v0] m IH]; simpl; [discriminate|].
  destruct (k0 =? k)%string eqn:E; simpl.
  - intros _. apply String.eqb_eq in E. subst k0.
    destruct (k =? k')%string eqn:E'.
    + apply String.eqb_eq in E'. congruence.
    + simpl. now rewrite String.eqb_refl.
  - intros H. destruct (k0 =? k')%string; simpl; [|rewrite E]; apply IH; exact H.
Qed.

Lemma JsMap_has_delete (k : string) (m : JsMap.t) :
  JsMap.has k (JsMap.delete k m) = false.
Proof.
  induction m as [|[k' v] m IH]; simpl; [reflexivity|].
  destruct (k' =? k)%string eqn:E; simpl; [exact IH|].
  rewrite E. exact IH.
Qed.

(** ** Registration *)

Section Registration.

Variable searchParams_get : string -> string -> option string.

(** C10. A registration request whose query has no [ep] parameter is
    answered 4.00 and leaves the world as it was: the database, the
    registered-clients map and the emitted events are unchanged. *)
Theorem C10_registration_without_ep_is_bad_request (req : Request) (w : World) :
  searchParams_get (url req) "ep" = None ->
  handleRegistration searchParams_get req w = (mkResponse "4.00" [], w).
Proof.
  intros Hep. unfold handleRegistration. rewrite Hep. reflexivity.
Qed.

(** C5. After a registration of endpoint [E] that was answered 2.01, the
    gateway found for [E] has status online and [isClientRegistered E]
    holds. *)
Theorem C5_registered_after_successful_registration
    (req : Request) (w : World) (E : string) :
  searchParams_get (url req) "ep" = Some E ->
  code (run (handleRegistration searchParams_get req) w) = "2.01" ->
  let w' := exec (handleRegistration searchParams_get req) w in
  (exists g, run (getGatewayByEndpoint E) w' = Some g /\ Gateway.status g = online)
  /\ isClientRegistered E w' = true.
Proof.
  intros Hep. unfold run, exec, handleRegistration. rewrite Hep.
  destruct (E =? "")%string; [discriminate|].
  set (ip := or_default _ _).
  unfold getGatewayByEndpoint, createGateway, updateGatewayStatus, bind, getDb, now,
    putDb, ret, registeredClients_set, emit, isClientRegistered.
  destruct (database w) as [t|] eqn:Hdb; simpl; repeat (rewrite Hdb; simpl);
    [|discriminate].
  destruct (find _ (gateways t)) as [g|] eqn:Hfind; simpl; repeat (rewrite Hdb; simpl).
  - (* the gateway was known *)
    intros _. split; [|apply JsMap_has_set].
    rewrite find_map_preserved
      by (intros x; destruct (Gateway.id x =? Gateway.id g)%string; reflexivity).
    rewrite Hfind. simpl. rewrite String.eqb_refl.
    eexists. split; reflexivity.
  - (* the gateway is created *)
    unfold insert_gateways.
    destruct (existsb _ (gateways t)) eqn:Hex; simpl; [discriminate|].
    apply existsb_or_false in Hex. destruct Hex as [Hid _]. simpl in Hid.
    apply existsb_false_find in Hid.
    rewrite hd_error_filter.
    rewrite (find_app_fresh _ _ _ Hid) by (simpl; apply String.eqb_refl).
    simpl. intros _. split; [|apply JsMap_has_set].
    rewrite find_map_preserved
      by (intros x; match goal with |- context [if ?b then _ else _] => destruct b end;
          reflexivity).
    rewrite (find_app_fresh _ _ _ Hfind) by (simpl; apply String.eqb_refl).
    simpl. rewrite String.eqb_refl.
    eexists. split; reflexivity.
Qed.

End Registration.

(** ** Update and the lifetime of a registration *)

Section Liveness.

Variable searchParams_get : string -> string -> option string.

(** C4, as the code has it.  An Update for an endpoint without a gateway
    record is answered 4.04 and changes nothing.  When a gateway record
    exists, whatever its status and whether or not the endpoint is in the
    registered-clients map, an Update on a path [/rd/...] is answered 2.04:
    the gateway is set online with [lastSeen] the current time, its other
    columns kept, the endpoint is entered in the map and one
    [client-updated] event is emitted; on any other path the answer is 4.04
    and nothing changes.  A deregistration answered 2.02 leaves exactly such
    a state: the endpoint is out of the map and its gateway record is still
    there, offline. *)
Theorem C4_update_needs_only_a_gateway_record
    (req : Request) (w : World) (E : string) :
  searchParams_get (url req) "ep" = Some E ->
  E <> "" ->
  let w' := exec (handleUpdate searchParams_get req) w in
  match run (getGatewayByEndpoint E) w with
  | None => handleUpdate searchParams_get req w = (mkResponse "4.04" [], w)
  | Some g =>
      if update_path_ok (url req)
      then run (handleUpdate searchParams_get req) w = mkResponse "2.04" []
           /\ isClientRegistered E w' = true
           /\ run (getGatewayByEndpoint E) w'
              = Some (Gateway.mk (Gateway.id g) (Gateway.name g) (Gateway.endpoint g)
                                 (Gateway.ipAddress g) online (Some (clock w))
                                 (Gateway.serialNumber g) (Gateway.ownerId g)
                                 (Gateway.createdAt g))
           /\ emitted w' = (emitted w ++ [client_updated E])%list
      else handleUpdate searchParams_get req w = (mkResponse "4.04" [], w)
  end
  /\ forall reqD : Request,
       searchParams_get (url reqD) "ep" = Some E ->
       run (handleDeregistration searchParams_get reqD) w = mkResponse "2.02" [] ->
       let wd := exec (handleDeregistration searchParams_get reqD) w in
       isClientRegistered E wd = false
       /\ exists g, run (getGatewayByEndpoint E) wd = Some g
                    /\ Gateway.status g = offline.
Proof.
  intros Hep Hne. apply String.eqb_neq in Hne. split.
  - unfold run, exec, handleUpdate, update_path_ok.
    destruct (Nat.ltb _ 2 || _) eqn:Hpath; simpl.
    + destruct (fst (getGatewayByEndpoint E w)); reflexivity.
    + rewrite Hep, Hne.
      unfold getGatewayByEndpoint, updateGatewayStatus, bind, getDb, now,
        putDb, ret, registeredClients_set, emit, isClientRegistered.
      destruct (database w) as [t|] eqn:Hdb; simpl; repeat (rewrite Hdb; simpl);
        [|destruct w; simpl in *; subst; reflexivity].
      destruct (find _ (gateways t)) as [g|] eqn:Hfind; simpl; repeat (rewrite Hdb; simpl).
      * split; [reflexivity|]. split; [apply JsMap_has_set|].
        rewrite find_map_preserved
          by (intros x; destruct (Gateway.id x =? Gateway.id g)%string; reflexivity).
        rewrite Hfind. simpl. rewrite String.eqb_refl.
        split; reflexivity.
      * destruct w; simpl in *; subst; reflexivity.
  - intros reqD HepD.
    unfold run, exec, handleDeregistration. rewrite HepD, Hne.
    unfold getGatewayByEndpoint, updateGatewayStatus, bind, getDb, now,
      putDb, ret, registeredClients_delete, emit, isClientRegistered.
    destruct (database w) as [t|] eqn:Hdb; simpl; repeat (rewrite Hdb; simpl);
      [|discriminate].
    destruct (find _ (gateways t)) as [g|] eqn:Hfind; simpl; repeat (rewrite Hdb; simpl);
      [|discriminate].
    intros _. split; [apply JsMap_has_delete|].
    rewrite find_map_preserved
      by (intros x; destruct (Gateway.id x =? Gateway.id g)%string; reflexivity).
    rewrite Hfind. simpl. rewrite String.eqb_refl.
    eexists. split; reflexivity.
Qed.

(** Each handler either leaves the registered-clients map alone, or sets
    the entry of its own endpoint, or (deregistration only) deletes it. *)
Lemma handleRegistration_keeps_registered (req : Request) (w : World) (E : string) :
  isClientRegistered E w = true ->
  isClientRegistered E (exec (handleRegistration searchParams_get req) w) = true.
Proof.
  intros Hreg. unfold exec, handleRegistration.
  destruct (searchParams_get (url req) "ep") as [ep|]; [|exact Hreg].
  destruct (ep =? "")%string; [exact Hreg|].
  unfold getGatewayByEndpoint, createGateway, updateGatewayStatus, bind, getDb, now,
    putDb, ret, registeredClients_set, emit, isClientRegistered in *.
  destruct (database w) as [t|] eqn:Hdb; simpl; repeat (rewrite Hdb; simpl);
    [|exact Hreg].
  destruct (find _ (gateways t)) as [g|]; simpl; repeat (rewrite Hdb; simpl).
  - apply JsMap_has_set_other, Hreg.
  - destruct (insert_gateways t _ (clock w)) as [t'|]; simpl; [|exact Hreg].
    destruct (hd_error _) as [g|]; simpl; [|exact Hreg].
    apply JsMap_has_set_other, Hreg.
Qed.

Lemma handleUpdate_keeps_registered (req : Request) (w : World) (E : string) :
  isClientRegistered E w = true ->
  isClientRegistered E (exec (handleUpdate searchParams_get req) w) = true.
Proof.
  intros Hreg. unfold exec, handleUpdate.
  destruct (Nat.ltb _ 2 || _); [exact Hreg|].
  destruct (searchParams_get (url req) "ep") as [ep|]; [|exact Hreg].
  destruct (ep =? "")%string; [exact Hreg|].
  unfold getGatewayByEndpoint, updateGatewayStatus, bind, getDb, now,
    putDb, ret, registeredClients_set, emit, isClientRegistered in *.
  destruct (database w) as [t|] eqn:Hdb; simpl; repeat (rewrite Hdb; simpl);
    [|exact Hreg].
  destruct (find _ (gateways t)) as [g|]; simpl; repeat (rewrite Hdb; simpl);
    [|exact Hreg].
  apply JsMap_has_set_other, Hreg.
Qed.

Lemma handleDeregistration_keeps_others (req : Request) (w : World) (E : string) :
  match searchParams_get (url req) "ep" with
  | Some ep => (ep =? E)%string
  | None => false
  end = false ->
  isClientRegistered E w = true ->
  isClientRegistered E (exec (handleDeregistration searchParams_get req) w) = true.
Proof.
  intros Hother Hreg. unfold exec, handleDeregistration.
  destruct (searchParams_get (url req) "ep") as [ep|]; [|exact Hreg].
  destruct (ep =? "")%string; [exact Hreg|].
  apply String.eqb_neq in Hother.
  unfold getGatewayByEndpoint, updateGatewayStatus, bind, getDb, now,
    putDb, ret, registeredClients_delete, emit, isClientRegistered in *.
  destruct (database w) as [t|] eqn:Hdb; simpl; repeat (rewrite Hdb; simpl);
    [|exact Hreg].
  destruct (find _ (gateways t)) as [g|]; simpl; repeat (rewrite Hdb; simpl);
    [|exact Hreg].
  apply JsMap_has_delete_other; assumption.
Qed.

Lemma handleResourceRequest_pure (req : Request) (w : World) :
  exec (handleResourceRequest req) w = w.
Proof.
  unfold exec, handleResourceRequest, ret.
  repeat match goal with |- context [if ?b then _ else _] => destruct b end;
    reflexivity.
Qed.

Lemma serve_keeps_registered (w : World) (E : string) (tr : Z * Request) :
  is_deregistration_of searchParams_get E (snd tr) = false ->
  isClientRegistered E w = true ->
  isClientRegistered E (serve searchParams_get w tr) = true.
Proof.
  destruct tr as [t req]. unfold serve, is_deregistration_of. simpl.
  intros Hnot Hreg.
  assert (Hreg' : isClientRegistered E (set_clock w t) = true) by exact Hreg.
  unfold handleCoapRequest.
  destruct (prefix "/rd" _); simpl in Hnot.
  - destruct ((if (method req =? "")%string then "GET" else method req) =? "POST")%string.
    { now apply handleRegistration_keeps_registered. }
    destruct ((if (method req =? "")%string then "GET" else method req) =? "PUT")%string.
    { now apply handleUpdate_keeps_registered. }
    destruct ((if (method req =? "")%string then "GET" else method req) =? "DELETE")%string.
    { simpl in Hnot. now apply handleDeregistration_keeps_others. }
    exact Hreg'.
  - rewrite handleResourceRequest_pure. exact Hreg'.
Qed.

(** C9, as the code has it.  Nothing but a deregistration takes an endpoint
    out of the registered-clients map: an endpoint that is registered stays
    registered through every sequence of requests, arriving at any times,
    none of which is a DELETE under [/rd] for that endpoint.  The lifetime
    sent at registration is read and dropped; elapsed time has no effect. *)
Theorem C9_registered_until_deregistered
    (w : World) (E : string) (trace : list (Z * Request)) :
  isClientRegistered E w = true ->
  Forall (fun tr => is_deregistration_of searchParams_get E (snd tr) = false) trace ->
  isClientRegistered E (fold_left (serve searchParams_get) trace w) = true
  /\ In E (getRegisteredClients (fold_left (serve searchParams_get) trace w)).
Proof.
  intros Hreg Hall.
  assert (H : isClientRegistered E (fold_left (serve searchParams_get) trace w) = true).
  { revert w Hreg. induction Hall as [|tr trace Htr _ IH]; intros w Hreg; simpl.
    - exact Hreg.
    - apply IH. now apply serve_keeps_registered. }
  split; [exact H|].
  unfold isClientRegistered, JsMap.has, getRegisteredClients, JsMap.keys in *.
  apply existsb_exists in H. destruct H as ([k v] & Hin & Hk).
  simpl in Hk. apply String.eqb_eq in Hk. subst k.
  change E with (fst (E, v)). now apply in_map.
Qed.

End Liveness.

(** ** Resource values *)

Lemma hd_insert_by_timestamp (r : ResourceValue.t) (l : list ResourceValue.t) :
  hd_error (insert_by_timestamp r l) =
  Some match l with
       | [] => r
       | x :: _ => if ResourceValue.timestamp r <? ResourceValue.timestamp x then r else x
       end.
Proof.
  destruct l as [|x l]; simpl; [reflexivity|].
  destruct (ResourceValue.timestamp r <? ResourceValue.timestamp x); reflexivity.
Qed.

Lemma orderBy_timestamp_nil (l : list ResourceValue.t) :
  orderBy_timestamp l = [] -> l = [].
Proof.
  destruct l as [|a l]; [reflexivity|]. simpl. intros H.
  pose proof (hd_insert_by_timestamp a (orderBy_timestamp l)) as Hh.
  rewrite H in Hh. discriminate.
Qed.

Lemma orderBy_timestamp_head_least (l : list ResourceValue.t) (r : ResourceValue.t) :
  hd_error (orderBy_timestamp l) = Some r ->
  In r l /\ forall x, In x l -> ResourceValue.timestamp r <= ResourceValue.timestamp x.
Proof.
  revert r. induction l as [|a l IH]; intros r; simpl; [discriminate|].
  rewrite hd_insert_by_timestamp.
  destruct (orderBy_timestamp l) as [|y s] eqn:Hs.
  - apply orderBy_timestamp_nil in Hs. subst l. intros H. injection H as <-.
    split; [now left|]. intros x [<-|[]]. lia.
  - destruct (IH y eq_refl) as [Hin Hmin].
    destruct (ResourceValue.timestamp a <? ResourceValue.timestamp y) eqn:Hlt;
      intros H; injection H as <-.
    + apply Z.ltb_lt in Hlt. split; [now left|].
      intros x [<-|Hx]; [lia|]. specialize (Hmin x Hx). lia.
    + apply Z.ltb_ge in Hlt. split; [now right|].
      intros x [<-|Hx]; [lia|]. now apply Hmin.
Qed.

(** What the query computes: a row of the resource whose timestamp no other
    row of the resource is below, and nothing when the resource has no row. *)
Lemma getLatestResourceValue_least (w : World) (t : Tables) (resourceId : string) :
  database w = Some t ->
  match run (getLatestResourceValue resourceId) w with
  | Some r =>
      In r (lwm2mResourceValues t)
      /\ ResourceValue.resourceId r = resourceId
      /\ forall x, In x (lwm2mResourceValues t) ->
                   ResourceValue.resourceId x = resourceId ->
                   ResourceValue.timestamp r <= ResourceValue.timestamp x
  | None =>
      forall x, In x (lwm2mResourceValues t) -> ResourceValue.resourceId x <> resourceId
  end.
Proof.
  intros Hdb. unfold run, getLatestResourceValue, bind, getDb, ret. rewrite Hdb.
  cbv beta iota zeta delta [fst].
  set (rows := filter _ (lwm2mResourceValues t)).
  assert (Hhd : hd_error (firstn 1 (orderBy_timestamp rows))
                = hd_error (orderBy_timestamp rows))
    by (destruct (orderBy_timestamp rows); reflexivity).
  rewrite Hhd.
  destruct (hd_error (orderBy_timestamp rows)) as [r|] eqn:Hr.
  - destruct (orderBy_timestamp_head_least rows r Hr) as [Hin Hmin].
    apply filter_In in Hin. destruct Hin as [Hin Hrid]. apply String.eqb_eq in Hrid.
    repeat split; try assumption.
    intros x Hx Hxr. apply Hmin. apply filter_In. split; [exact Hx|].
    now apply String.eqb_eq.
  - assert (rows = []) as Hnil.
    { apply orderBy_timestamp_nil. destruct (orderBy_timestamp rows); [reflexivity|discriminate]. }
    intros x Hx Hxr.
    assert (In x rows) as Hin
      by (apply filter_In; split; [exact Hx|now apply String.eqb_eq]).
    rewrite Hnil in Hin. exact Hin.
Qed.

(** C1, on the code.  Two values are recorded for resource [res-1], observed
    at times 1000 and 2000.  [getLatestResourceValue] answers with the one
    observed at 1000, in whichever order the two were inserted: the query
    sorts by timestamp ascending and keeps the first row. *)
Theorem C1_latest_query_answers_with_the_earliest_row :
  let v1 := mkNewResourceValue "v1" "res-1" "gw-1" "-71" (Some 1000) in
  let v2 := mkNewResourceValue "v2" "res-1" "gw-1" "-64" (Some 2000) in
  let w12 := exec (recordResourceValue v1 ;;; recordResourceValue v2) freshWorld in
  let w21 := exec (recordResourceValue v2 ;;; recordResourceValue v1) freshWorld in
  run (getLatestResourceValue "res-1") w12
    = Some (ResourceValue.mk "v1" "res-1" "gw-1" "-71" 1000 0)
  /\ run (getLatestResourceValue "res-1") w21
    = Some (ResourceValue.mk "v1" "res-1" "gw-1" "-71" 1000 0)
  /\ option_map lwm2mResourceValues (database w12)
    = Some [ResourceValue.mk "v1" "res-1" "gw-1" "-71" 1000 0;
            ResourceValue.mk "v2" "res-1" "gw-1" "-64" 2000 0]
  /\ run (getLatestResourceValue "res-1") freshWorld = None.
Proof.
  repeat split; reflexivity.
Qed.

(** ** Commands *)

Lemma find_none_existsb {A} (p : A -> bool) (l : list A) :
  find p l = None -> existsb p l = false.
Proof.
  induction l as [|a l IH]; simpl; [reflexivity|].
  destruct (p a); [discriminate|exact IH].
Qed.

Lemma CommandStatus_eqb_refl (s : CommandStatus) : CommandStatus_eqb s s = true.
Proof. destruct s; reflexivity. Qed.

Lemma AlertType_eqb_refl (a : AlertType) : AlertType_eqb a a = true.
Proof. destruct a; reflexivity. Qed.

Lemma exec_bind {A B} (c : M A) (k : A -> M B) (w : World) :
  exec (bind c k) w = exec (k (run c w)) (exec c w).
Proof.
  unfold exec, run, bind. destruct (c w); reflexivity.
Qed.

Lemma char_length_app (a b : string) :
  char_length (a ++ b) = (char_length a + char_length b)%nat.
Proof.
  induction a as [|c a IH]; simpl; [reflexivity|].
  destruct (is_continuation c); simpl; now rewrite IH.
Qed.

(** C2, as the code has it.  [commands.create] never consults the gateways
    table or the registered-clients map: with a database at hand and a
    generated id that is not yet taken and fits its column (64 characters;
    the value, if any, within the 65535 bytes of a [text] column, a limit
    the model does not enforce itself), it appends a pending command for
    the given [gatewayId] and returns it, whether or not a gateway of that
    id exists. *)
Theorem C2_submit_does_not_look_up_the_gateway
    (w : World) (t : Tables) (input : commands.createInput) :
  database w = Some t ->
  let cid := "cmd-" ++ commands.gatewayId input ++ "-" ++ commands.resourceId input
             ++ "-" ++ string_of_Z (clock w) in
  find (fun r => (Command.id r =? cid)%string) (lwm2mCommands t) = None ->
  (char_length cid <= 64)%nat ->
  (forall v, commands.value input = Some v -> Z.of_nat (String.length v) <= 65535) ->
  let c := Command.mk cid (commands.gatewayId input) (commands.resourceId input)
                      (commands.commandType input) (commands.value input)
                      pending None (clock w) None in
  commands.create input w =
    (inr c, mkWorld (Some (set_lwm2mCommands t (lwm2mCommands t ++ [c])))
                    (clock w) (registeredClients w) (emitted w)).
Proof.
  intros Hdb cid Hfresh Hfit _ c.
  assert (Hid : Nat.leb (char_length cid) 64 = true) by now apply Nat.leb_le.
  assert (Hg : Nat.leb (char_length (commands.gatewayId input)) 64 = true).
  { apply Nat.leb_le. unfold cid in Hfit. rewrite !char_length_app in Hfit. lia. }
  assert (Hr : Nat.leb (char_length (commands.resourceId input)) 64 = true).
  { apply Nat.leb_le. unfold cid in Hfit. rewrite !char_length_app in Hfit. lia. }
  unfold commands.create, createCommand, bind, getDb, now, putDb, ret.
  rewrite Hdb. unfold insert_lwm2mCommands, command_fits, fits_varchar.
  cbn [nc_id nc_gatewayId nc_resourceId nc_commandType nc_value nc_status].
  fold cid. rewrite (find_none_existsb _ _ Hfresh), Hid, Hg, Hr.
  cbn [andb negb].
  fold c. rewrite hd_error_filter. cbn [lwm2mCommands set_lwm2mCommands].
  rewrite (find_app_fresh _ _ c Hfresh) by (simpl; apply String.eqb_refl).
  reflexivity.
Qed.





(** C8, as the code has it.  [commands.listPending] filters the commands
    table by gateway id and status alone.  It returns exactly the commands
    of the gateway whose status is pending; the answer is the same whatever
    the gateways table and the registered-clients map hold; and a command
    that [commands.create] has just returned is listed as pending for its
    gateway. *)
Theorem C8_pending_commands_are_listed_whatever_the_gateway
    (w : World) (t : Tables) (g : string) :
  database w = Some t ->
  (forall c, In c (run (commands.listPending g) w)
             <-> In c (lwm2mCommands t)
                 /\ Command.gatewayId c = g /\ Command.status c = pending)
  /\ (forall (gs : list Gateway.t) (clients : JsMap.t),
        run (commands.listPending g)
            (mkWorld (Some (set_gateways t gs)) (clock w) clients (emitted w))
        = run (commands.listPending g) w)
  /\ (forall (input : commands.createInput) (c : Command.t),
        run (commands.create input) w = inr c ->
        In c (run (commands.listPending (commands.gatewayId input))
                  (exec (commands.create input) w))).
Proof.
  intros Hdb. split; [|split].
  - intros c. unfold run, commands.listPending, listPendingCommands, bind, getDb, ret.
    rewrite Hdb. cbn [fst]. rewrite filter_In, andb_true_iff, String.eqb_eq.
    assert (Hs : CommandStatus_eqb (Command.status c) pending = true
                 <-> Command.status c = pending).
    { destruct (Command.status c); simpl; split; congruence. }
    rewrite Hs. reflexivity.
  - intros gs clients.
    unfold run, commands.listPending, listPendingCommands, bind, getDb, ret.
    rewrite Hdb. reflexivity.
  - intros input c.
    unfold run, exec, commands.create, commands.listPending, createCommand,
      listPendingCommands, bind, getDb, now, putDb, ret.
    rewrite Hdb. simpl.
    unfold insert_lwm2mCommands. cbn [nc_id].
    destruct (existsb _ (lwm2mCommands t)) eqn:Hex; simpl; [discriminate|].
    destruct (negb (command_fits _)); simpl; [discriminate|].
    apply existsb_false_find in Hex.
    rewrite hd_error_filter.
    rewrite (find_app_fresh _ _ _ Hex) by (simpl; apply String.eqb_refl).
    simpl. intros H. injection H as <-.
    apply filter_In. split.
    + apply in_or_app. right. now left.
    + simpl. now rewrite String.eqb_refl.
Qed.

(** ** Alerts *)

(** C6, as the code has it.  [createAlert] inserts without looking for an
    unresolved alert of the same gateway and type: with a database at hand
    and an id not yet taken, every call adds one more unresolved row, also
    when such a row is already there. *)
Theorem C6_createAlert_adds_a_row_each_time
    (w : World) (t : Tables) (a : NewAlert) :
  database w = Some t ->
  find (fun r => (Alert.id r =? na_id a)%string) (alerts t) = None ->
  let row := Alert.mk (na_id a) (na_gatewayId a) (na_alertType a) (na_severity a)
                      (na_message a) false (clock w) None in
  run (createAlert a) w = Some row
  /\ exists t', database (exec (createAlert a) w) = Some t'
       /\ unresolvedAlerts (na_gatewayId a) (na_alertType a) t'
          = (unresolvedAlerts (na_gatewayId a) (na_alertType a) t ++ [row])%list.
Proof.
  intros Hdb Hfresh row.
  unfold run, exec, createAlert, bind, getDb, now, putDb, ret.
  rewrite Hdb. unfold insert_alerts. rewrite (find_none_existsb _ _ Hfresh).
  fold row. simpl. rewrite hd_error_filter.
  rewrite (find_app_fresh _ _ row Hfresh) by (simpl; apply String.eqb_refl).
  split; [reflexivity|].
  eexists. split; [reflexivity|].
  unfold unresolvedAlerts. simpl. rewrite filter_app. simpl.
  now rewrite String.eqb_refl, AlertType_eqb_refl.
Qed.

(** C7, as the code has it.  [alerts.resolve] sets [isResolved] and stamps
    [resolvedAt] with the current time on every call, resolved already or
    not: after a first call at the world's time the alert is resolved with
    [resolvedAt] that time, and after a second one at time [t2] it is
    resolved with [resolvedAt] equal to [t2], every other column as before;
    when [t2] is the time of the first call, the second one leaves the
    database as it was. *)
Theorem C7_resolve_stamps_resolvedAt_on_every_call
    (w : World) (id : string) (a : Alert.t) (t2 : Z) :
  alertRow id w = Some a ->
  let w1 := exec (alertsRouter.resolve id) w in
  let w2 := exec (alertsRouter.resolve id) (set_clock w1 t2) in
  alertRow id w1
  = Some (Alert.mk (Alert.id a) (Alert.gatewayId a) (Alert.alertType a)
                   (Alert.severity a) (Alert.message a) true (Alert.createdAt a)
                   (Some (clock w)))
  /\ alertRow id w2
     = Some (Alert.mk (Alert.id a) (Alert.gatewayId a) (Alert.alertType a)
                      (Alert.severity a) (Alert.message a) true (Alert.createdAt a)
                      (Some t2))
  /\ (t2 = clock w -> database w2 = database w1).
Proof.
  unfold alertRow.
  unfold exec, alertsRouter.resolve, resolveAlert, bind, getDb, now, putDb, ret, set_clock.
  destruct (database w) as [t|] eqn:Hdb; simpl; [|discriminate].
  intros Hfind.
  assert (Hid : (Alert.id a =? id)%string = true).
  { apply find_some in Hfind. tauto. }
  assert (Hp : forall clk x,
             (Alert.id (if (Alert.id x =? id)%string then apply_resolve clk x else x)
              =? id)%string
             = (Alert.id x =? id)%string).
  { intros clk x. destruct (Alert.id x =? id)%string eqn:E; simpl; now rewrite ?E. }
  repeat split.
  - rewrite find_map_preserved by apply Hp. rewrite Hfind. simpl. now rewrite Hid.
  - rewrite map_map.
    rewrite (find_map_preserved _
               (fun x => if (Alert.id (if (Alert.id x =? id)%string
                                       then apply_resolve (clock w) x else x) =? id)%string
                         then apply_resolve t2 (if (Alert.id x =? id)%string
                                                then apply_resolve (clock w) x else x)
                         else (if (Alert.id x =? id)%string
                               then apply_resolve (clock w) x else x))).
    + rewrite Hfind. simpl. rewrite Hid. simpl. now rewrite Hid.
    + intros x. destruct (Alert.id x =? id)%string eqn:E; simpl; rewrite E; simpl;
        now rewrite ?E.
  - intros ->. f_equal. unfold set_alerts. simpl. f_equal.
    rewrite map_map. apply map_ext. intros x.
    destruct (Alert.id x =? id)%string eqn:E; simpl; rewrite E; reflexivity.
Qed.

(** * The scenarios of the specification, run on the code *)

(** Witness of C10: a registration with a lifetime but no endpoint. *)
Lemma C10_witness :
  plain_searchParams_get "/rd?lt=60" "ep" = None
  /\ handleRegistration plain_searchParams_get
       (mkRequest "POST" "/rd?lt=60" from_device) world_registered
     = (mkResponse "4.00" [], world_registered).
Proof.
  split; [reflexivity|].
  apply (C10_registration_without_ep_is_bad_request plain_searchParams_get).
  reflexivity.
Defined.

(** Witness of C5: endpoint [rv50x-01] registers with a lifetime of 60 s. *)
Lemma C5_witness :
  let req := mkRequest "POST" "/rd?ep=rv50x-01&lt=60" from_device in
  plain_searchParams_get (url req) "ep" = Some "rv50x-01"
  /\ code (run (handleRegistration plain_searchParams_get req) freshWorld) = "2.01"
  /\ (exists g,
        run (getGatewayByEndpoint "rv50x-01")
            (exec (handleRegistration plain_searchParams_get req) freshWorld) = Some g
        /\ Gateway.status g = online)
  /\ isClientRegistered "rv50x-01"
       (exec (handleRegistration plain_searchParams_get req) freshWorld) = true.
Proof.
  intros req. split; [reflexivity|]. split; [reflexivity|].
  apply (C5_registered_after_successful_registration plain_searchParams_get
           req freshWorld "rv50x-01"); reflexivity.
Defined.

(** Counterexample to C4: [dev1] registers, deregisters, and then sends an
    Update.  The Update is answered 2.04, not 4.04; the gateway is online
    again, the endpoint is back in the registered-clients map and a
    [client-updated] event has been emitted. *)
Lemma C4_counterexample_update_after_deregistration :
  let req := mkRequest "PUT" "/rd/gw-dev1-0?ep=dev1" from_device in
  let w := set_clock world_deregistered 2000 in
  let w' := exec (handleUpdate plain_searchParams_get req) w in
  isClientRegistered "dev1" w = false
  /\ option_map Gateway.status (run (getGatewayByEndpoint "dev1") w) = Some offline
  /\ code (run (handleUpdate plain_searchParams_get req) w) = "2.04"
  /\ isClientRegistered "dev1" w' = true
  /\ option_map Gateway.status (run (getGatewayByEndpoint "dev1") w') = Some online
  /\ option_map Gateway.lastSeen (run (getGatewayByEndpoint "dev1") w') = Some (Some 2000)
  /\ emitted w' = (emitted w ++ [client_updated "dev1"])%list.
Proof.
  repeat split; reflexivity.
Qed.

(** Witness of C4: the same Update, through the theorem, with the
    deregistration of [dev1] that came before it. *)
Lemma C4_witness :
  let req := mkRequest "PUT" "/rd/gw-dev1-0?ep=dev1" from_device in
  let w := set_clock world_deregistered 2000 in
  let w' := exec (handleUpdate plain_searchParams_get req) w in
  plain_searchParams_get (url req) "ep" = Some "dev1"
  /\ "dev1" <> ""
  /\ (run (handleUpdate plain_searchParams_get req) w = mkResponse "2.04" []
      /\ isClientRegistered "dev1" w' = true
      /\ run (getGatewayByEndpoint "dev1") w'
         = Some (Gateway.mk "gw-dev1-0" "dev1" "dev1" (Some "10.0.0.7") online (Some 2000)
                            (Some "dev1") "system" 0)
      /\ emitted w' = (emitted w ++ [client_updated "dev1"])%list)
  /\ forall reqD : Request,
       plain_searchParams_get (url reqD) "ep" = Some "dev1" ->
       run (handleDeregistration plain_searchParams_get reqD) w = mkResponse "2.02" [] ->
       let wd := exec (handleDeregistration plain_searchParams_get reqD) w in
       isClientRegistered "dev1" wd = false
       /\ exists g, run (getGatewayByEndpoint "dev1") wd = Some g
                    /\ Gateway.status g = offline.
Proof.
  intros req w w'. split; [reflexivity|]. split; [discriminate|].
  exact (C4_update_needs_only_a_gateway_record plain_searchParams_get req w "dev1"
           eq_refl (fun H => match H with eq_refl => I end)).
Defined.

(** Counterexample to C9: the scenario of the specification.  [rv50x-02]
    registers at time 0 with a lifetime of 5 s; at time 6000 ms the server
    takes a resource read.  The lifetime has run out, and the endpoint is
    still in the registered-clients map, with its gateway online: nothing in
    the server has moved it to another state, and nothing lists it as stale. *)
Lemma C9_counterexample_registration_outlives_its_lifetime :
  let w0 := serve plain_searchParams_get freshWorld
                  (0, mkRequest "POST" "/rd?ep=rv50x-02&lt=5" from_device) in
  let w1 := serve plain_searchParams_get w0 (6000, mkRequest "GET" "/3/0" from_device) in
  plain_searchParams_get "/rd?ep=rv50x-02&lt=5" "lt" = Some "5"
  /\ registeredClients w1 = [("rv50x-02", mkClientInfo "rv50x-02" 0)]
  /\ clock w1 - 0 > 5 * 1000
  /\ isClientRegistered "rv50x-02" w1 = true
  /\ getRegisteredClients w1 = ["rv50x-02"]
  /\ option_map Gateway.status (run (getGatewayByEndpoint "rv50x-02") w1) = Some online.
Proof.
  repeat split; reflexivity.
Qed.

(** Witness of C9: [dev1] stays registered while other traffic goes by. *)
Lemma C9_witness :
  let trace :=
    [ (6000, mkRequest "GET" "/3/0" from_device);
      (90000000, mkRequest "PUT" "/rd/gw-dev2-0?ep=dev2" from_device);
      (90000001, mkRequest "POST" "/rd?ep=dev2&lt=5" from_device);
      (90000002, mkRequest "DELETE" "/rd?ep=dev2" from_device) ] in
  isClientRegistered "dev1" world_registered = true
  /\ Forall (fun tr => is_deregistration_of plain_searchParams_get "dev1" (snd tr) = false)
            trace
  /\ isClientRegistered "dev1"
       (fold_left (serve plain_searchParams_get) trace world_registered) = true
  /\ In "dev1" (getRegisteredClients
                  (fold_left (serve plain_searchParams_get) trace world_registered)).
Proof.
  intros trace.
  assert (Hall : Forall (fun tr => is_deregistration_of plain_searchParams_get "dev1"
                                     (snd tr) = false) trace)
    by (repeat constructor).
  split; [reflexivity|]. split; [exact Hall|].
  exact (C9_registered_until_deregistered plain_searchParams_get
           world_registered "dev1" trace eq_refl Hall).
Defined.

(** Counterexample to C2: a command is submitted for gateway [gw-ghost] on a
    database without any gateway.  The call returns the command and the
    commands table holds it. *)
Lemma C2_counterexample_submit_for_unknown_gateway :
  let w := set_clock freshWorld 2000 in
  let input := commands.mkCreateInput "gw-ghost" "res-1" read None in
  let c := Command.mk "cmd-gw-ghost-res-1-2000" "gw-ghost" "res-1" read None
                      pending None 2000 None in
  option_map gateways (database w) = Some []
  /\ run (getGateway "gw-ghost") w = None
  /\ run (commands.create input) w = inr c
  /\ option_map lwm2mCommands (database (exec (commands.create input) w)) = Some [c].
Proof.
  repeat split; reflexivity.
Qed.

(** Witness of C2: a command for [dev1], deregistered and offline. *)
Lemma C2_witness :
  let w := set_clock world_deregistered 2000 in
  let t := mkTables
             [Gateway.mk "gw-dev1-0" "dev1" "dev1" (Some "10.0.0.7") offline (Some 1000)
                         (Some "dev1") "system" 0] [] [] [] in
  database w = Some t
  /\ find (fun r => (Command.id r =? "cmd-gw-dev1-0-res-1-2000")%string)
          (lwm2mCommands t) = None
  /\ (char_length "cmd-gw-dev1-0-res-1-2000" <= 64)%nat
  /\ (forall v, commands.value reboot_dev1 = Some v -> Z.of_nat (String.length v) <= 65535)
  /\ commands.create reboot_dev1 w =
       (inr reboot_dev1_row,
        mkWorld (Some (set_lwm2mCommands t (lwm2mCommands t ++ [reboot_dev1_row])))
                (clock w) (registeredClients w) (emitted w)).
Proof.
  intros w t. split; [reflexivity|]. split; [reflexivity|].
  assert (Hfit : (char_length "cmd-gw-dev1-0-res-1-2000" <= 64)%nat)
    by (apply Nat.leb_le; reflexivity).
  assert (Hvalue : forall v, commands.value reboot_dev1 = Some v
                             -> Z.of_nat (String.length v) <= 65535)
    by (intros v Hv; injection Hv as <-; simpl; lia).
  split; [exact Hfit|]. split; [exact Hvalue|].
  exact (C2_submit_does_not_look_up_the_gateway w t reboot_dev1 eq_refl eq_refl
           Hfit Hvalue).
Defined.



(** Counterexample to C8: [dev1] has deregistered; its gateway is offline
    and the endpoint is not in the registered-clients map.  A command
    submitted for it is returned by [commands.listPending]. *)
Lemma C8_counterexample_pending_listed_for_offline_gateway :
  let w := set_clock world_deregistered 2000 in
  let w' := exec (commands.create reboot_dev1) w in
  isClientRegistered "dev1" w' = false
  /\ option_map Gateway.status (run (getGateway "gw-dev1-0") w') = Some offline
  /\ run (commands.listPending "gw-dev1-0") w' = [reboot_dev1_row].
Proof.
  repeat split; reflexivity.
Qed.

(** Witness of C8: the same world, through the theorem. *)
Lemma C8_witness :
  let w := exec (commands.create reboot_dev1) (set_clock world_deregistered 2000) in
  let t := mkTables
             [Gateway.mk "gw-dev1-0" "dev1" "dev1" (Some "10.0.0.7") offline (Some 1000)
                         (Some "dev1") "system" 0] [] [reboot_dev1_row] [] in
  database w = Some t
  /\ (forall c, In c (run (commands.listPending "gw-dev1-0") w)
                <-> In c (lwm2mCommands t)
                    /\ Command.gatewayId c = "gw-dev1-0" /\ Command.status c = pending)
  /\ (forall (gs : list Gateway.t) (clients : JsMap.t),
        run (commands.listPending "gw-dev1-0")
            (mkWorld (Some (set_gateways t gs)) (clock w) clients (emitted w))
        = run (commands.listPending "gw-dev1-0") w)
  /\ (forall (input : commands.createInput) (c : Command.t),
        run (commands.create input) w = inr c ->
        In c (run (commands.listPending (commands.gatewayId input))
                  (exec (commands.create input) w))).
Proof.
  intros w t. split; [reflexivity|].
  exact (C8_pending_commands_are_listed_whatever_the_gateway w t "gw-dev1-0" eq_refl).
Defined.

(** Counterexample to C6: the offline alert is raised twice for one gateway,
    none resolved in between.  Two unresolved rows of that type result. *)
Lemma C6_counterexample_two_unresolved_alerts :
  let w := exec (createAlert (offline_alert "alert-1") ;;;
                 createAlert (offline_alert "alert-2")) world_deregistered in
  option_map (unresolvedAlerts "gw-dev1-0" alert_offline) (database w)
    = Some [offline_alert_row "alert-1" 1000; offline_alert_row "alert-2" 1000]
  /\ run (listAlerts (Some "gw-dev1-0") true) w
    = [offline_alert_row "alert-1" 1000; offline_alert_row "alert-2" 1000].
Proof.
  repeat split; reflexivity.
Qed.

(** Witness of C6: the second of those two calls, through the theorem. *)
Lemma C6_witness :
  let w := exec (createAlert (offline_alert "alert-1")) world_deregistered in
  let t := mkTables
             [Gateway.mk "gw-dev1-0" "dev1" "dev1" (Some "10.0.0.7") offline (Some 1000)
                         (Some "dev1") "system" 0]
             [] [] [offline_alert_row "alert-1" 1000] in
  database w = Some t
  /\ find (fun r => (Alert.id r =? "alert-2")%string) (alerts t) = None
  /\ run (createAlert (offline_alert "alert-2")) w = Some (offline_alert_row "alert-2" 1000)
  /\ exists t', database (exec (createAlert (offline_alert "alert-2")) w) = Some t'
       /\ unresolvedAlerts "gw-dev1-0" alert_offline t'
          = (unresolvedAlerts "gw-dev1-0" alert_offline t
             ++ [offline_alert_row "alert-2" 1000])%list.
Proof.
  intros w t. split; [reflexivity|]. split; [reflexivity|].
  exact (C6_createAlert_adds_a_row_each_time w t (offline_alert "alert-2")
           eq_refl eq_refl).
Defined.

(** Counterexample to C7: an alert is resolved at time 2000 and resolved
    again at time 3000.  The second call is not a no-op: [resolvedAt] moves
    from 2000 to 3000. *)
Lemma C7_counterexample_second_resolve_moves_resolvedAt :
  let w0 := exec (createAlert (offline_alert "alert-1")) world_deregistered in
  let w1 := exec (alertsRouter.resolve "alert-1") (set_clock w0 2000) in
  let w2 := exec (alertsRouter.resolve "alert-1") (set_clock w1 3000) in
  option_map Alert.isResolved (alertRow "alert-1" w1) = Some true
  /\ option_map Alert.resolvedAt (alertRow "alert-1" w1) = Some (Some 2000)
  /\ option_map Alert.isResolved (alertRow "alert-1" w2) = Some true
  /\ option_map Alert.resolvedAt (alertRow "alert-1" w2) = Some (Some 3000)
  /\ database w2 <> database w1.
Proof.
  repeat split; try reflexivity. discriminate.
Qed.

(** Witness of C7: the same two calls, through the theorem. *)
Lemma C7_witness :
  let w := set_clock (exec (createAlert (offline_alert "alert-1")) world_deregistered)
                     2000 in
  let w1 := exec (alertsRouter.resolve "alert-1") w in
  let w2 := exec (alertsRouter.resolve "alert-1") (set_clock w1 3000) in
  alertRow "alert-1" w = Some (offline_alert_row "alert-1" 1000)
  /\ alertRow "alert-1" w1
     = Some (Alert.mk "alert-1" "gw-dev1-0" alert_offline warning "gateway offline"
                      true 1000 (Some 2000))
  /\ alertRow "alert-1" w2
     = Some (Alert.mk "alert-1" "gw-dev1-0" alert_offline warning "gateway offline"
                      true 1000 (Some 3000))
  /\ (3000 = clock w -> database w2 = database w1).
Proof.
  intros w w1 w2. split; [reflexivity|].
  exact (C7_resolve_stamps_resolvedAt_on_every_call w "alert-1"
           (offline_alert_row "alert-1" 1000) 3000 eq_refl).
Defined.

(** * The handlers, case by case *)

Lemma find_app_found {A} (p : A -> bool) (l l' : list A) (x : A) :
  find p l = Some x -> find p (l ++ l') = Some x.
Proof.
  induction l as [|a l IH]; simpl; [discriminate|].
  destruct (p a); auto.
Qed.

Lemma world_eta (w : World) :
  mkWorld (database w) (clock w) (registeredClients w) (emitted w) = w.
Proof. destruct w; reflexivity. Qed.

Section Handlers.

Variable searchParams_get : string -> string -> option string.

(** Registration of an endpoint whose gateway row exists. *)
Lemma handleRegistration_known
    (req : Request) (w : World) (t : Tables) (E : string) (g : Gateway.t) :
  searchParams_get (url req) "ep" = Some E ->
  E <> "" ->
  database w = Some t ->
  find (fun r => (Gateway.endpoint r =? E)%string) (gateways t) = Some g ->
  handleRegistration searchParams_get req w =
    (mkResponse "2.01" [("Location-Path", "/rd/" ++ Gateway.id g)],
     mkWorld (Some (set_gateways t
                (gateways_after_status (Gateway.id g) online (clock w)
                   (Some (remoteAddress_of req)) (gateways t))))
             (clock w)
             (JsMap.set E (mkClientInfo E (clock w)) (registeredClients w))
             (emitted w ++
              [client_registered E (Gateway.id g)
                 (or_default (searchParams_get (url req) "lwm2m") "1.0.0")
                 (or_default (searchParams_get (url req) "b") "U")])).
Proof.
  intros Hep Hne Hdb Hfind. apply String.eqb_neq in Hne.
  unfold handleRegistration. rewrite Hep, Hne.
  unfold getGatewayByEndpoint, updateGatewayStatus, bind, getDb, now,
    putDb, ret, registeredClients_set, emit.
  rewrite Hdb. simpl. rewrite Hfind. simpl. rewrite Hdb. reflexivity.
Qed.

(** Registration of an endpoint without a gateway row: the row is created
    and set online, unless the generated id is taken. *)
Lemma handleRegistration_new
    (req : Request) (w : World) (t : Tables) (E : string) :
  searchParams_get (url req) "ep" = Some E ->
  E <> "" ->
  database w = Some t ->
  find (fun r => (Gateway.endpoint r =? E)%string) (gateways t) = None ->
  let row := registration_row E (remoteAddress_of req) (clock w) in
  handleRegistration searchParams_get req w =
    if existsb (fun r => (Gateway.id r =? Gateway.id row)%string) (gateways t)
    then (mkResponse "5.00" [], w)
    else
      (mkResponse "2.01" [("Location-Path", "/rd/" ++ Gateway.id row)],
       mkWorld (Some (set_gateways t
                  (gateways_after_status (Gateway.id row) online (clock w)
                     (Some (remoteAddress_of req)) (gateways t ++ [row]))))
               (clock w)
               (JsMap.set E (mkClientInfo E (clock w)) (registeredClients w))
               (emitted w ++
                [client_registered E (Gateway.id row)
                   (or_default (searchParams_get (url req) "lwm2m") "1.0.0")
                   (or_default (searchParams_get (url req) "b") "U")])).
Proof.
  intros Hep Hne Hdb Hfind row. apply String.eqb_neq in Hne.
  unfold handleRegistration. rewrite Hep, Hne.
  unfold getGatewayByEndpoint, createGateway, updateGatewayStatus, bind, getDb, now,
    putDb, ret, registeredClients_set, emit.
  rewrite Hdb. simpl. rewrite Hfind. simpl. rewrite Hdb.
  unfold insert_gateways. cbn [ng_id ng_endpoint ng_name ng_ipAddress ng_ownerId
                               ng_serialNumber].
  pose proof (find_none_existsb _ _ Hfind) as Hend.
  assert (Hsplit : existsb (fun r => (Gateway.id r =? Gateway.id row)%string
                                     || (Gateway.endpoint r =? E)%string) (gateways t)
                   = existsb (fun r => (Gateway.id r =? Gateway.id row)%string) (gateways t)).
  { clear - Hend. induction (gateways t) as [|a l IH]; simpl in *; [reflexivity|].
    apply orb_false_iff in Hend. destruct Hend as [Ha Hl].
    rewrite Ha, orb_false_r, (IH Hl). reflexivity. }
  change (String "g" (String "w" (String "-" (E ++ String "-" (string_of_Z (clock w))))))
    with (Gateway.id row).
  change (Gateway.mk (Gateway.id row) E E
            (Some (or_default (option_map address (rsinfo req)) "unknown"))
            offline None (Some E) "system" (clock w)) with row.
  change (or_default (option_map address (rsinfo req)) "unknown")
    with (remoteAddress_of req).
  rewrite Hsplit. clear Hsplit Hend.
  destruct (existsb _ (gateways t)) eqn:Hid.
  - reflexivity.
  - cbn [gateways set_gateways]. rewrite hd_error_filter.
    rewrite (find_app_fresh _ _ row (existsb_false_find _ _ Hid))
      by (simpl; apply String.eqb_refl).
    reflexivity.
Qed.

(** An Update that passes the path test, for an endpoint with a gateway row. *)
Lemma handleUpdate_known
    (req : Request) (w : World) (t : Tables) (E : string) (g : Gateway.t) :
  update_path_ok (url req) = true ->
  searchParams_get (url req) "ep" = Some E ->
  E <> "" ->
  database w = Some t ->
  find (fun r => (Gateway.endpoint r =? E)%string) (gateways t) = Some g ->
  handleUpdate searchParams_get req w =
    (mkResponse "2.04" [],
     mkWorld (Some (set_gateways t
                (gateways_after_status (Gateway.id g) online (clock w) None (gateways t))))
             (clock w)
             (JsMap.set E (mkClientInfo E (clock w)) (registeredClients w))
             (emitted w ++ [client_updated E])).
Proof.
  intros Hpath Hep Hne Hdb Hfind. apply String.eqb_neq in Hne.
  unfold update_path_ok in Hpath. apply negb_true_iff in Hpath.
  unfold handleUpdate. rewrite Hpath, Hep, Hne.
  unfold getGatewayByEndpoint, updateGatewayStatus, bind, getDb, now,
    putDb, ret, registeredClients_set, emit.
  rewrite Hdb. simpl. rewrite Hfind. simpl. rewrite Hdb. reflexivity.
Qed.

(** A deregistration for an endpoint with a gateway row. *)
Lemma handleDeregistration_known
    (req : Request) (w : World) (t : Tables) (E : string) (g : Gateway.t) :
  searchParams_get (url req) "ep" = Some E ->
  E <> "" ->
  database w = Some t ->
  find (fun r => (Gateway.endpoint r =? E)%string) (gateways t) = Some g ->
  handleDeregistration searchParams_get req w =
    (mkResponse "2.02" [],
     mkWorld (Some (set_gateways t
                (gateways_after_status (Gateway.id g) offline (clock w) None (gateways t))))
             (clock w)
             (JsMap.delete E (registeredClients w))
             (emitted w ++ [client_deregistered E])).
Proof.
  intros Hep Hne Hdb Hfind. apply String.eqb_neq in Hne.
  unfold handleDeregistration. rewrite Hep, Hne.
  unfold getGatewayByEndpoint, updateGatewayStatus, bind, getDb, now,
    putDb, ret, registeredClients_delete, emit.
  rewrite Hdb. simpl. rewrite Hfind. simpl. rewrite Hdb. reflexivity.
Qed.

(** Update and deregistration for an endpoint without a gateway row. *)
Lemma handleUpdate_unknown (req : Request) (w : World) (E : string) :
  searchParams_get (url req) "ep" = Some E ->
  E <> "" ->
  run (getGatewayByEndpoint E) w = None ->
  handleUpdate searchParams_get req w = (mkResponse "4.04" [], w).
Proof.
  intros Hep Hne. apply String.eqb_neq in Hne.
  unfold run, handleUpdate. destruct (_ || _); [reflexivity|]. rewrite Hep, Hne.
  unfold getGatewayByEndpoint, bind, getDb, ret.
  destruct (database w) as [t|]; simpl; [|reflexivity].
  intros ->. reflexivity.
Qed.

Lemma handleDeregistration_unknown (req : Request) (w : World) (E : string) :
  searchParams_get (url req) "ep" = Some E ->
  E <> "" ->
  run (getGatewayByEndpoint E) w = None ->
  handleDeregistration searchParams_get req w = (mkResponse "4.04" [], w).
Proof.
  intros Hep Hne. apply String.eqb_neq in Hne.
  unfold run, handleDeregistration. rewrite Hep, Hne.
  unfold getGatewayByEndpoint, bind, getDb, ret.
  destruct (database w) as [t|]; simpl; [|reflexivity].
  intros ->. reflexivity.
Qed.

End Handlers.

(** ** The UPDATE of a gateway's status, and the map *)

Lemma gateways_after_status_ids id status clk ip (l : list Gateway.t) :
  map Gateway.id (gateways_after_status id status clk ip l) = map Gateway.id l.
Proof.
  unfold gateways_after_status. rewrite map_map. apply map_ext.
  intros r. destruct (Gateway.id r =? id)%string; reflexivity.
Qed.

Lemma gateways_after_status_endpoints id status clk ip (l : list Gateway.t) :
  map Gateway.endpoint (gateways_after_status id status clk ip l) = map Gateway.endpoint l.
Proof.
  unfold gateways_after_status. rewrite map_map. apply map_ext.
  intros r. destruct (Gateway.id r =? id)%string; reflexivity.
Qed.

Lemma find_endpoint_after_status id status clk ip (l : list Gateway.t) (E : string) :
  find (fun r => (Gateway.endpoint r =? E)%string) (gateways_after_status id status clk ip l)
  = option_map (fun r => if (Gateway.id r =? id)%string
                         then apply_status_update status clk ip r else r)
               (find (fun r => (Gateway.endpoint r =? E)%string) l).
Proof.
  unfold gateways_after_status. apply find_map_preserved.
  intros r. destruct (Gateway.id r =? id)%string; reflexivity.
Qed.


Lemma filter_owner_after_status id status clk ip (l : list Gateway.t) (o : string) :
  filter (fun r => (Gateway.ownerId r =? o)%string) (gateways_after_status id status clk ip l)
  = gateways_after_status id status clk ip
      (filter (fun r => (Gateway.ownerId r =? o)%string) l).
Proof.
  unfold gateways_after_status. induction l as [|a l IH]; simpl; [reflexivity|].
  destruct (Gateway.id a =? id)%string eqn:Ei; simpl;
    destruct (Gateway.ownerId a =? o)%string eqn:Eo; simpl;
    rewrite ?Ei, ?Eo, IH; reflexivity.
Qed.

Lemma find_some_endpoint (l : list Gateway.t) (E : string) (g : Gateway.t) :
  find (fun r => (Gateway.endpoint r =? E)%string) l = Some g ->
  In g l /\ Gateway.endpoint g = E.
Proof.
  intros H. apply find_some in H. destruct H as [Hin He].
  apply String.eqb_eq in He. auto.
Qed.

Lemma getGatewayByEndpoint_some (w : World) (E : string) (g : Gateway.t) :
  run (getGatewayByEndpoint E) w = Some g ->
  exists t, database w = Some t
            /\ find (fun r => (Gateway.endpoint r =? E)%string) (gateways t) = Some g.
Proof.
  unfold run, getGatewayByEndpoint, bind, getDb, ret.
  destruct (database w) as [t|]; simpl; [|discriminate]. eauto.
Qed.

Lemma getGatewayByEndpoint_db (w : World) (t : Tables) (E : string) :
  database w = Some t ->
  run (getGatewayByEndpoint E) w
  = find (fun r => (Gateway.endpoint r =? E)%string) (gateways t).
Proof.
  intros Hdb. unfold run, getGatewayByEndpoint, bind, getDb, ret. now rewrite Hdb.
Qed.

Lemma NoDup_map_eq {A B} (f : A -> B) (l : list A) (a b : A) :
  NoDup (map f l) -> In a l -> In b l -> f a = f b -> a = b.
Proof.
  induction l as [|x l IH]; simpl; [tauto|].
  intros Hnd Ha Hb Hf. inversion Hnd as [|? ? Hx Hl]; subst.
  destruct Ha as [<-|Ha], Hb as [<-|Hb]; auto.
  - exfalso. apply Hx. rewrite Hf. now apply in_map.
  - exfalso. apply Hx. rewrite <- Hf. now apply in_map.
Qed.

Lemma NoDup_snoc {A} (l : list A) (x : A) :
  NoDup l -> ~ In x l -> NoDup (l ++ [x]).
Proof.
  intros Hl Hx. induction Hl as [|a l Ha Hl IH]; simpl.
  - constructor; [tauto|constructor].
  - constructor.
    + rewrite in_app_iff. simpl. intros [H|[H|[]]]; [tauto|].
      subst. apply Hx. now left.
    + apply IH. intros H. apply Hx. now right.
Qed.

Lemma existsb_false_not_in (f : Gateway.t -> string) (l : list Gateway.t) (k : string) :
  existsb (fun r => (f r =? k)%string) l = false -> ~ In k (map f l).
Proof.
  intros Hex Hin. apply in_map_iff in Hin. destruct Hin as (r & Hr & Hin).
  assert (existsb (fun r => (f r =? k)%string) l = true) as Ht.
  { apply existsb_exists. exists r. split; [exact Hin|]. now apply String.eqb_eq. }
  congruence.
Qed.

Lemma JsMap_has_In (k : string) (m : JsMap.t) :
  JsMap.has k m = true <-> In k (JsMap.keys m).
Proof.
  unfold JsMap.has, JsMap.keys. rewrite existsb_exists, in_map_iff. split.
  - intros ([k' v] & Hin & Hk). apply String.eqb_eq in Hk. simpl in Hk. subst.
    exists (k, v). auto.
  - intros ([k' v] & Hk & Hin). simpl in Hk. subst.
    exists (k, v). split; [exact Hin|apply String.eqb_refl].
Qed.

Lemma JsMap_keys_set (k : string) (v : ClientInfo) (m : JsMap.t) :
  JsMap.keys (JsMap.set k v m)
  = if JsMap.has k m then JsMap.keys m else (JsMap.keys m ++ [k])%list.
Proof.
  induction m as [|[k' v'] m IH]; simpl; [reflexivity|].
  destruct (k' =? k)%string eqn:E; simpl.
  - apply String.eqb_eq in E. now subst.
  - rewrite IH. unfold JsMap.has. destruct (existsb _ m); reflexivity.
Qed.

Lemma JsMap_has_set_inv (k k' : string) (v : ClientInfo) (m : JsMap.t) :
  JsMap.has k (JsMap.set k' v m) = true -> k = k' \/ JsMap.has k m = true.
Proof.
  rewrite !JsMap_has_In, JsMap_keys_set.
  destruct (JsMap.has k' m); [auto|].
  rewrite in_app_iff. simpl. intros [H|[H|[]]]; auto.
Qed.

Lemma JsMap_has_delete_inv (k k' : string) (m : JsMap.t) :
  JsMap.has k (JsMap.delete k' m) = true -> k <> k' /\ JsMap.has k m = true.
Proof.
  intros H. split.
  - intros ->. rewrite JsMap_has_delete in H. discriminate.
  - revert H. unfold JsMap.has, JsMap.delete. rewrite !existsb_exists.
    intros (x & Hin & Hx). apply filter_In in Hin. exists x. tauto.
Qed.

Lemma JsMap_NoDup_set (k : string) (v : ClientInfo) (m : JsMap.t) :
  NoDup (JsMap.keys m) -> NoDup (JsMap.keys (JsMap.set k v m)).
Proof.
  intros Hnd. rewrite JsMap_keys_set. destruct (JsMap.has k m) eqn:Hk; [exact Hnd|].
  apply NoDup_snoc; [exact Hnd|].
  intros Hin. apply JsMap_has_In in Hin. congruence.
Qed.

Lemma JsMap_NoDup_delete (k : string) (m : JsMap.t) :
  NoDup (JsMap.keys m) -> NoDup (JsMap.keys (JsMap.delete k m)).
Proof.
  unfold JsMap.keys, JsMap.delete.
  induction m as [|[k' v] m IH]; simpl; [auto|].
  intros Hnd. inversion Hnd as [|? ? Hx Hl]; subst.
  destruct (k' =? k)%string; simpl; [auto|].
  constructor; [|auto].
  intros Hin. apply Hx. apply in_map_iff in Hin. destruct Hin as (x & Hx' & Hin).
  apply filter_In in Hin. apply in_map_iff. exists x. tauto.
Qed.

Lemma or_default_truthy (o : option string) (d : string) :
  d <> "" -> truthy (Some (or_default o d)) = true.
Proof.
  intros Hd. apply String.eqb_neq in Hd. unfold or_default.
  destruct o as [s|]; simpl; [|now rewrite Hd].
  destruct (s =? "")%string eqn:E; simpl; now rewrite ?E, ?Hd.
Qed.

Lemma remoteAddress_truthy (req : Request) :
  truthy (Some (remoteAddress_of req)) = true.
Proof. apply or_default_truthy. discriminate. Qed.

(** * Deregistration, re-registration and the path of an Update *)

Lemma split_without_sep (sep : ascii) (s : string) :
  occurs sep s = false -> split sep s = [s].
Proof.
  induction s as [|c s IH]; simpl; [reflexivity|].
  destruct (Ascii.eqb c sep); simpl; [discriminate|].
  intros H. now rewrite (IH H).
Qed.

Lemma pathParts_of_app_sep (s : string) :
  pathParts_of (String "/"%char s) = pathParts_of s.
Proof. reflexivity. Qed.

Lemma pathParts_of_segment (a s : string) :
  a <> "" -> occurs "/"%char a = false ->
  pathParts_of (a ++ String "/"%char s) = a :: pathParts_of s.
Proof.
  unfold pathParts_of. revert s. induction a as [|c a IH]; intros s Hne Hocc; [congruence|].
  simpl in Hocc. apply orb_false_iff in Hocc. destruct Hocc as [Hc Ha].
  simpl. rewrite Hc.
  destruct a as [|c' a'].
  - simpl. reflexivity.
  - assert (Hne' : String c' a' <> "") by discriminate.
    specialize (IH s Hne' Ha).
    destruct (split "/"%char (String c' a' ++ String "/"%char s)) as [|x xs] eqn:Hs.
    + simpl in IH. discriminate.
    + simpl in IH. simpl.
      destruct (x =? "")%string eqn:Hx; simpl in IH.
      * apply String.eqb_eq in Hx. subst x.
        (* the first segment of the rest cannot be empty *)
        exfalso. simpl in Hs. simpl in Ha. apply orb_false_iff in Ha.
        destruct Ha as [Hc' _]. rewrite Hc' in Hs.
        destruct (split "/"%char (a' ++ String "/"%char s)); discriminate.
      * injection IH as Hx' Hxs. subst x. now rewrite Hxs.
Qed.

Lemma pathParts_of_nonempty (s : string) (c : ascii) (a b : string) :
  s = a ++ String c b -> c <> "/"%char -> pathParts_of s <> [].
Proof.
  intros -> Hc. apply Ascii.eqb_neq in Hc.
  unfold pathParts_of. induction a as [|x a IH]; simpl.
  - rewrite Hc. destruct (split "/"%char b); simpl; discriminate.
  - destruct (Ascii.eqb x "/"%char); simpl; [exact IH|].
    destruct (split "/"%char (a ++ String c b)); simpl; discriminate.
Qed.

Lemma update_path_ok_location (rest : string) :
  pathParts_of rest <> [] -> update_path_ok ("/rd/" ++ rest) = true.
Proof.
  intros Hrest. unfold update_path_ok.
  change ("/rd/" ++ rest) with (String "/"%char ("rd" ++ String "/"%char rest)).
  cbn [String.eqb Ascii.eqb]. 
  replace (if (String "/"%char ("rd" ++ String "/"%char rest) =? "")%string
           then "/" else String "/"%char ("rd" ++ String "/"%char rest))
    with (String "/"%char ("rd" ++ String "/"%char rest)) by reflexivity.
  rewrite pathParts_of_app_sep, pathParts_of_segment by (discriminate || reflexivity).
  destruct (pathParts_of rest); [congruence|reflexivity].
Qed.

Section Deregistration.

Variable searchParams_get : string -> string -> option string.

(** X1.  A deregistration for an endpoint that has a gateway row is answered
    2.02; afterwards the endpoint is not registered, its gateway is offline
    with [lastSeen] the time of the request and the address it had, and one
    [client-deregistered] event has been emitted. *)
Theorem X1_deregistration_takes_the_endpoint_out
    (req : Request) (w : World) (E : string) (g : Gateway.t) :
  searchParams_get (url req) "ep" = Some E ->
  E <> "" ->
  run (getGatewayByEndpoint E) w = Some g ->
  let w' := exec (handleDeregistration searchParams_get req) w in
  run (handleDeregistration searchParams_get req) w = mkResponse "2.02" []
  /\ isClientRegistered E w' = false
  /\ run (getGatewayByEndpoint E) w'
     = Some (Gateway.mk (Gateway.id g) (Gateway.name g) (Gateway.endpoint g)
                        (Gateway.ipAddress g) offline (Some (clock w))
                        (Gateway.serialNumber g) (Gateway.ownerId g)
                        (Gateway.createdAt g))
  /\ emitted w' = (emitted w ++ [client_deregistered E])%list.
Proof.
  intros Hep Hne Hg. destruct (getGatewayByEndpoint_some _ _ _ Hg) as (t & Hdb & Hfind).
  unfold run at 1, exec.
  rewrite (handleDeregistration_known searchParams_get req w t E g Hep Hne Hdb Hfind).
  cbn [fst snd]. repeat split.
  - apply JsMap_has_delete.
  - erewrite getGatewayByEndpoint_db by reflexivity. cbn [gateways set_gateways].
    rewrite find_endpoint_after_status, Hfind. simpl. now rewrite String.eqb_refl.
Qed.

(** X2.  A deregistration that names no endpoint is answered 4.00, one that
    names an endpoint without gateway row 4.04; in both cases the world is
    left as it was. *)
Theorem X2_deregistration_of_an_unknown_endpoint (req : Request) (w : World) :
  (forall E, searchParams_get (url req) "ep" = Some E -> E <> "" ->
             run (getGatewayByEndpoint E) w = None) ->
  handleDeregistration searchParams_get req w =
    (mkResponse (if truthy (searchParams_get (url req) "ep") then "4.04" else "4.00") [],
     w).
Proof.
  intros Hunknown.
  destruct (searchParams_get (url req) "ep") as [E|] eqn:Hep.
  - simpl. destruct (E =? "")%string eqn:HE; simpl.
    + unfold handleDeregistration. now rewrite Hep, HE.
    + apply String.eqb_neq in HE.
      apply (handleDeregistration_unknown searchParams_get req w E Hep HE
               (Hunknown E eq_refl HE)).
  - unfold handleDeregistration. now rewrite Hep.
Qed.

(** X3.  An Update sent to [/rd] itself, with the query right behind it, is
    always answered 4.04 and changes nothing, registered endpoint or not: the
    query stays glued to the only path segment, which then is not [rd]. *)
Theorem X3_update_on_the_registration_path_is_not_found
    (req : Request) (w : World) (q : string) :
  url req = "/rd" ++ q ->
  occurs "/"%char q = false ->
  handleUpdate searchParams_get req w = (mkResponse "4.04" [], w).
Proof.
  intros Hurl Hq. unfold handleUpdate. rewrite Hurl.
  change ("/rd" ++ q) with (String "/"%char ("rd" ++ q)).
  replace (if (String "/"%char ("rd" ++ q) =? "")%string then "/"
           else String "/"%char ("rd" ++ q))
    with (String "/"%char ("rd" ++ q)) by reflexivity.
  rewrite pathParts_of_app_sep. unfold pathParts_of.
  rewrite split_without_sep by (simpl; exact Hq).
  reflexivity.
Qed.

End Deregistration.

(** * One request, one step *)

Section Steps.

Variable searchParams_get : string -> string -> option string.

Lemma handleRegistration_step (req : Request) (w : World) :
  CoapStep w (exec (handleRegistration searchParams_get req) w).
Proof.
  destruct (searchParams_get (url req) "ep") as [E|] eqn:Hep.
  2:{ unfold exec, handleRegistration. rewrite Hep. constructor. }
  destruct (E =? "")%string eqn:HE.
  { unfold exec, handleRegistration. rewrite Hep, HE. constructor. }
  apply String.eqb_neq in HE.
  destruct (database w) as [t|] eqn:Hdb.
  2:{ unfold exec, handleRegistration. rewrite Hep.
      apply String.eqb_neq in HE. rewrite HE.
      unfold getGatewayByEndpoint, createGateway, bind, getDb, now, ret.
      rewrite Hdb. simpl. rewrite Hdb. simpl. constructor. }
  destruct (find (fun r => (Gateway.endpoint r =? E)%string) (gateways t)) as [g|] eqn:Hfind.
  - unfold exec. rewrite (handleRegistration_known _ req w t E g Hep HE Hdb Hfind).
    cbn [snd]. now apply step_online.
  - unfold exec. rewrite (handleRegistration_new _ req w t E Hep HE Hdb Hfind).
    destruct (existsb _ (gateways t)) eqn:Hid; cbn [snd].
    + constructor.
    + now apply step_created.
Qed.

Lemma handleUpdate_step (req : Request) (w : World) :
  CoapStep w (exec (handleUpdate searchParams_get req) w).
Proof.
  destruct (update_path_ok (url req)) eqn:Hpath.
  2:{ unfold update_path_ok in Hpath. apply negb_false_iff in Hpath.
      unfold exec, handleUpdate. rewrite Hpath. constructor. }
  destruct (searchParams_get (url req) "ep") as [E|] eqn:Hep.
  2:{ unfold exec, handleUpdate. rewrite Hep.
      destruct (_ || _); constructor. }
  destruct (E =? "")%string eqn:HE.
  { unfold exec, handleUpdate. rewrite Hep, HE. destruct (_ || _); constructor. }
  apply String.eqb_neq in HE.
  destruct (run (getGatewayByEndpoint E) w) as [g|] eqn:Hg.
  - destruct (getGatewayByEndpoint_some _ _ _ Hg) as (t & Hdb & Hfind).
    unfold exec. rewrite (handleUpdate_known _ req w t E g Hpath Hep HE Hdb Hfind).
    cbn [snd]. now apply step_online.
  - unfold exec. rewrite (handleUpdate_unknown _ req w E Hep HE Hg). constructor.
Qed.

Lemma handleDeregistration_step (req : Request) (w : World) :
  CoapStep w (exec (handleDeregistration searchParams_get req) w).
Proof.
  destruct (searchParams_get (url req) "ep") as [E|] eqn:Hep.
  2:{ unfold exec, handleDeregistration. rewrite Hep. constructor. }
  destruct (E =? "")%string eqn:HE.
  { unfold exec, handleDeregistration. rewrite Hep, HE. constructor. }
  apply String.eqb_neq in HE.
  destruct (run (getGatewayByEndpoint E) w) as [g|] eqn:Hg.
  - destruct (getGatewayByEndpoint_some _ _ _ Hg) as (t & Hdb & Hfind).
    unfold exec. rewrite (handleDeregistration_known _ req w t E g Hep HE Hdb Hfind).
    cbn [snd]. now apply step_offline.
  - unfold exec. rewrite (handleDeregistration_unknown _ req w E Hep HE Hg). constructor.
Qed.

Lemma handleCoapRequest_step (req : Request) (w : World) :
  CoapStep w (exec (handleCoapRequest searchParams_get req) w).
Proof.
  unfold handleCoapRequest.
  destruct (prefix "/rd" _).
  - destruct (_ =? "POST")%string; [apply handleRegistration_step|].
    destruct (_ =? "PUT")%string; [apply handleUpdate_step|].
    destruct (_ =? "DELETE")%string; [apply handleDeregistration_step|].
    constructor.
  - unfold exec, handleResourceRequest, ret.
    repeat match goal with |- context [if ?b then _ else _] => destruct b end;
      constructor.
Qed.

End Steps.

(** * What CoAP traffic keeps *)

Lemma CoapStep_database (w w' : World) :
  CoapStep w w' ->
  match database w with
  | None => w' = w
  | Some t =>
      exists t', database w' = Some t'
        /\ lwm2mResourceValues t' = lwm2mResourceValues t
        /\ lwm2mCommands t' = lwm2mCommands t
        /\ alerts t' = alerts t
        /\ exists l, map Gateway.id (gateways t') = (map Gateway.id (gateways t) ++ l)%list
  end.
Proof.
  intros [ |t E g ip e _ Hdb _|t E addr e _ Hdb _ _|t E g e _ Hdb _].
  - destruct (database w) as [t|]; [|reflexivity].
    exists t. repeat split. exists []. now rewrite app_nil_r.
  - rewrite Hdb. eexists. split; [reflexivity|]. repeat split.
    exists []. cbn [gateways set_gateways].
    now rewrite gateways_after_status_ids, app_nil_r.
  - rewrite Hdb. eexists. split; [reflexivity|]. repeat split.
    eexists. cbn [gateways set_gateways].
    rewrite gateways_after_status_ids, map_app. reflexivity.
  - rewrite Hdb. eexists. split; [reflexivity|]. repeat split.
    exists []. cbn [gateways set_gateways].
    now rewrite gateways_after_status_ids, app_nil_r.
Qed.

Lemma CoapStep_NoDup_registered (w w' : World) :
  CoapStep w w' ->
  NoDup (getRegisteredClients w) -> NoDup (getRegisteredClients w').
Proof.
  unfold getRegisteredClients.
  intros [ | | | ]; cbn [registeredClients]; intros Hnd;
    auto using JsMap_NoDup_set, JsMap_NoDup_delete.
Qed.

Lemma gateways_wf_after_status (t : Tables) id status clk ip :
  gateways_wf t ->
  gateways_wf (set_gateways t (gateways_after_status id status clk ip (gateways t))).
Proof.
  unfold gateways_wf. cbn [gateways set_gateways].
  now rewrite gateways_after_status_ids, gateways_after_status_endpoints.
Qed.

Lemma gateways_wf_snoc (t : Tables) (row : Gateway.t) :
  gateways_wf t ->
  existsb (fun r => (Gateway.id r =? Gateway.id row)%string) (gateways t) = false ->
  find (fun r => (Gateway.endpoint r =? Gateway.endpoint row)%string) (gateways t) = None ->
  gateways_wf (set_gateways t (gateways t ++ [row])).
Proof.
  unfold gateways_wf. cbn [gateways set_gateways]. intros [Hid Hep] Hnid Hnep.
  rewrite !map_app. simpl. split; apply NoDup_snoc; auto.
  - now apply existsb_false_not_in.
  - apply existsb_false_not_in. now apply find_none_existsb.
Qed.

Lemma CoapStep_gateways_wf (w w' : World) (t : Tables) :
  CoapStep w w' ->
  database w = Some t -> gateways_wf t ->
  exists t', database w' = Some t' /\ gateways_wf t'.
Proof.
  intros [ |t0 E g ip e _ Hdb _|t0 E addr e _ Hdb Hnone Hid|t0 E g e _ Hdb _] Ht Hwf;
    try (rewrite Hdb in Ht; injection Ht as ->).
  - eauto.
  - eexists. split; [reflexivity|]. now apply gateways_wf_after_status.
  - eexists. split; [reflexivity|].
    apply (gateways_wf_after_status (set_gateways t (gateways t ++ [_]))).
    apply gateways_wf_snoc; auto.
  - eexists. split; [reflexivity|]. now apply gateways_wf_after_status.
Qed.

Lemma CoapStep_consistent (w w' : World) :
  CoapStep w w' -> registry_consistent w -> registry_consistent w'.
Proof.
  intros Hstep [Hnd Hdbw]. split; [now apply (CoapStep_NoDup_registered w)|].
  destruct Hstep as [ |t E g ip e HE Hdb Hfind|t E addr e HE Hdb Hnone Hid
                     |t E g e HE Hdb Hfind].
  - exact Hdbw.
  - rewrite Hdb in Hdbw. destruct Hdbw as [Hwf Hon]. cbn [database]. split.
    + now apply gateways_wf_after_status.
    + intros E' Hreg. erewrite getGatewayByEndpoint_db by reflexivity.
      cbn [gateways set_gateways]. rewrite find_endpoint_after_status.
      unfold isClientRegistered in Hreg. cbn [registeredClients] in Hreg.
      apply JsMap_has_set_inv in Hreg. destruct Hreg as [->|Hreg].
      * rewrite Hfind. simpl. rewrite String.eqb_refl. eexists. split; reflexivity.
      * destruct (Hon E' Hreg) as (g' & Hg' & Hst).
        rewrite (getGatewayByEndpoint_db w t E' Hdb) in Hg'. rewrite Hg'. simpl.
        destruct (Gateway.id g' =? Gateway.id g)%string; eexists; split;
          try reflexivity; exact Hst.
  - rewrite Hdb in Hdbw. destruct Hdbw as [Hwf Hon]. cbn [database]. split.
    + apply (gateways_wf_after_status (set_gateways t (gateways t ++ [_]))).
      apply gateways_wf_snoc; auto.
    + intros E' Hreg. erewrite getGatewayByEndpoint_db by reflexivity.
      cbn [gateways set_gateways]. rewrite find_endpoint_after_status.
      unfold isClientRegistered in Hreg. cbn [registeredClients] in Hreg.
      apply JsMap_has_set_inv in Hreg. destruct Hreg as [->|Hreg].
      * rewrite (find_app_fresh _ _ _ Hnone) by (simpl; apply String.eqb_refl).
        simpl. rewrite String.eqb_refl. eexists. split; reflexivity.
      * destruct (Hon E' Hreg) as (g' & Hg' & Hst).
        rewrite (getGatewayByEndpoint_db w t E' Hdb) in Hg'.
        rewrite (find_app_found _ _ _ _ Hg'). simpl.
        destruct (Gateway.id g' =? _)%string; eexists; split;
          try reflexivity; exact Hst.
  - rewrite Hdb in Hdbw. destruct Hdbw as [Hwf Hon]. cbn [database]. split.
    + now apply gateways_wf_after_status.
    + intros E' Hreg. erewrite getGatewayByEndpoint_db by reflexivity.
      cbn [gateways set_gateways]. rewrite find_endpoint_after_status.
      unfold isClientRegistered in Hreg. cbn [registeredClients] in Hreg.
      apply JsMap_has_delete_inv in Hreg. destruct Hreg as [Hne Hreg].
      destruct (Hon E' Hreg) as (g' & Hg' & Hst).
      rewrite (getGatewayByEndpoint_db w t E' Hdb) in Hg'. rewrite Hg'. simpl.
      destruct (Gateway.id g' =? Gateway.id g)%string eqn:Hid.
      * exfalso. apply String.eqb_eq in Hid.
        destruct (find_some_endpoint _ _ _ Hg') as [Hin' He'].
        destruct (find_some_endpoint _ _ _ Hfind) as [Hin He].
        destruct Hwf as [Hids _].
        pose proof (NoDup_map_eq Gateway.id _ g' g Hids Hin' Hin Hid) as Heq.
        subst g'. congruence.
      * eexists. split; [reflexivity|exact Hst].
Qed.

Lemma registry_consistent_set_clock (w : World) (t : Z) :
  registry_consistent w -> registry_consistent (set_clock w t).
Proof.
  unfold registry_consistent, isClientRegistered, getRegisteredClients.
  cbn [set_clock database registeredClients].
  intros [Hnd H]. split; [exact Hnd|].
  destruct (database w) as [tb|] eqn:Hdb; [|exact I].
  destruct H as [Hwf Hon]. split; [exact Hwf|].
  intros E HE. destruct (Hon E HE) as (g & Hg & Hst). exists g. split; [|exact Hst].
  rewrite (getGatewayByEndpoint_db w tb E Hdb) in Hg.
  now rewrite (getGatewayByEndpoint_db (set_clock w t) tb E Hdb).
Qed.

Section Traffic.

Variable searchParams_get : string -> string -> option string.

Lemma serve_step (w : World) (tr : Z * Request) :
  CoapStep (set_clock w (fst tr)) (serve searchParams_get w tr).
Proof. apply handleCoapRequest_step. Qed.

(** X4.  Over any CoAP traffic the registry stays in step with the
    database: no endpoint is listed twice by [getRegisteredClients], no two
    gateways share an id or an endpoint, and every registered endpoint has a
    gateway row whose status is online. *)
Theorem X4_traffic_keeps_registry_and_database_in_step
    (w : World) (trace : list (Z * Request)) :
  registry_consistent w ->
  registry_consistent (fold_left (serve searchParams_get) trace w).
Proof.
  revert w. induction trace as [|tr trace IH]; intros w Hw; simpl; [exact Hw|].
  apply IH. apply (CoapStep_consistent (set_clock w (fst tr))); [apply serve_step|].
  now apply registry_consistent_set_clock.
Qed.

(** X5.  The gateways table keeps its keys under CoAP traffic, whatever the
    registered-clients map holds: starting from a table without duplicate
    ids or endpoints, every later table is without them too. *)
Theorem X5_traffic_keeps_gateway_keys_unique
    (w : World) (t : Tables) (trace : list (Z * Request)) :
  database w = Some t ->
  gateways_wf t ->
  exists t', database (fold_left (serve searchParams_get) trace w) = Some t'
             /\ gateways_wf t'.
Proof.
  revert w t. induction trace as [|tr trace IH]; intros w t Hdb Hwf; simpl; [eauto|].
  destruct (CoapStep_gateways_wf _ _ t (serve_step w tr) Hdb Hwf) as (t1 & Hdb1 & Hwf1).
  now apply (IH _ t1).
Qed.

(** X6.  The CoAP server never writes resource values, commands or alerts,
    and never removes a gateway: after any traffic those three tables are
    what they were, and the ids of the gateways table start with the ids it
    had.  In particular the pending commands of every gateway are the same
    before and after. *)
Theorem X6_traffic_leaves_values_commands_and_alerts_alone
    (w : World) (trace : list (Z * Request)) :
  let w' := fold_left (serve searchParams_get) trace w in
  option_map lwm2mResourceValues (database w') = option_map lwm2mResourceValues (database w)
  /\ option_map lwm2mCommands (database w') = option_map lwm2mCommands (database w)
  /\ option_map alerts (database w') = option_map alerts (database w)
  /\ (forall gatewayId,
        run (listPendingCommands gatewayId) w' = run (listPendingCommands gatewayId) w)
  /\ match database w, database w' with
     | Some t, Some t' =>
         exists l, map Gateway.id (gateways t') = (map Gateway.id (gateways t) ++ l)%list
     | None, None => True
     | _, _ => False
     end.
Proof.
  assert (H : forall w,
    let w' := fold_left (serve searchParams_get) trace w in
    match database w with
    | None => database w' = None
    | Some t =>
        exists t', database w' = Some t'
          /\ lwm2mResourceValues t' = lwm2mResourceValues t
          /\ lwm2mCommands t' = lwm2mCommands t
          /\ alerts t' = alerts t
          /\ exists l, map Gateway.id (gateways t') = (map Gateway.id (gateways t) ++ l)%list
    end).
  { induction trace as [|tr trace IH]; intros w0; simpl.
    - destruct (database w0) as [t|]; [|reflexivity].
      exists t. repeat split. exists []. now rewrite app_nil_r.
    - pose proof (CoapStep_database _ _ (serve_step w0 tr)) as Hs.
      specialize (IH (serve searchParams_get w0 tr)). simpl in IH.
      change (database (set_clock w0 (fst tr))) with (database w0) in Hs.
      destruct (database w0) as [t|] eqn:Hdb0.
      + destruct Hs as (t1 & Hdb1 & Hv1 & Hc1 & Ha1 & l1 & Hl1).
        rewrite Hdb1 in IH. destruct IH as (t2 & Hdb2 & Hv2 & Hc2 & Ha2 & l2 & Hl2).
        exists t2. repeat split; try congruence.
        exists (l1 ++ l2)%list. rewrite Hl2, Hl1. now rewrite app_assoc.
      + rewrite Hs in IH |- *.
        change (database (set_clock w0 (fst tr))) with (database w0) in IH.
        now rewrite Hdb0 in IH. }
  intros w'. specialize (H w). fold w' in H.
  destruct (database w) as [t|] eqn:Hdb.
  - destruct H as (t' & Hdb' & Hv & Hc & Ha & l & Hl).
    rewrite Hdb'. simpl. repeat split; try congruence.
    + intros g. unfold run, listPendingCommands, bind, getDb, ret.
      rewrite Hdb, Hdb'. simpl. now rewrite Hc.
    + eauto.
  - rewrite H. simpl. repeat split.
    intros g. unfold run, listPendingCommands, bind, getDb, ret.
    now rewrite Hdb, H.
Qed.

End Traffic.

(** * Registration, followed by something else *)

Lemma string_app_assoc (a b c : string) : ((a ++ b) ++ c = a ++ (b ++ c))%string.
Proof. induction a as [|x a IH]; simpl; [reflexivity|now rewrite IH]. Qed.

Lemma CoapStep_owner_ids (w w' : World) (o : string) :
  CoapStep w w' -> o <> "system" ->
  map Gateway.id (run (listGatewaysByOwner o) w')
  = map Gateway.id (run (listGatewaysByOwner o) w).
Proof.
  intros Hstep Ho. apply String.eqb_neq in Ho.
  unfold run, listGatewaysByOwner, bind, getDb, ret.
  destruct Hstep as [ |t E g ip e _ Hdb _|t E addr e _ Hdb _ _|t E g e _ Hdb _];
    [reflexivity| | | ]; rewrite Hdb; cbn [database fst gateways set_gateways];
    rewrite filter_owner_after_status, gateways_after_status_ids; try reflexivity.
  rewrite filter_app.
  assert (Hrow : filter (fun r => (Gateway.ownerId r =? o)%string)
                        [registration_row E addr (clock w)] = []).
  { cbn [filter registration_row Gateway.ownerId].
    rewrite String.eqb_sym. now rewrite Ho. }
  now rewrite Hrow, app_nil_r.
Qed.

Lemma createGateway_eq (w : World) (t : Tables) (ng : NewGateway) :
  database w = Some t ->
  createGateway ng w =
    if existsb (fun r => (Gateway.id r =? ng_id ng)%string
                         || (Gateway.endpoint r =? ng_endpoint ng)%string) (gateways t)
    then (None, w)
    else (Some (gateway_row ng (clock w)),
          mkWorld (Some (set_gateways t (gateways t ++ [gateway_row ng (clock w)])))
                  (clock w) (registeredClients w) (emitted w)).
Proof.
  intros Hdb. unfold createGateway, bind, getDb, now, putDb, ret. rewrite Hdb.
  unfold insert_gateways. fold (gateway_row ng (clock w)).
  destruct (existsb _ (gateways t)) eqn:Hex; [reflexivity|].
  apply existsb_or_false in Hex. destruct Hex as [Hid _].
  apply existsb_false_find in Hid.
  rewrite hd_error_filter. cbn [gateways set_gateways].
  rewrite (find_app_fresh _ _ (gateway_row ng (clock w)) Hid)
    by (simpl; apply String.eqb_refl).
  reflexivity.
Qed.

Lemma createGateway_none (w : World) (ng : NewGateway) :
  database w = None -> createGateway ng w = (None, w).
Proof.
  intros Hdb. unfold createGateway, bind, getDb, ret. now rewrite Hdb.
Qed.

Lemma gateways_create_eq (w : World) (t : Tables) (u : string)
    (input : gatewaysRouter.createInput) :
  database w = Some t ->
  let ng := mkNewGateway
              ("gw-" ++ gatewaysRouter.endpoint input ++ "-" ++ string_of_Z (clock w))
              (gatewaysRouter.name input) (gatewaysRouter.endpoint input)
              (gatewaysRouter.ipAddress input) u (gatewaysRouter.serialNumber input) in
  gatewaysRouter.create u input w =
    if existsb (fun r => (Gateway.id r =? ng_id ng)%string
                         || (Gateway.endpoint r =? ng_endpoint ng)%string) (gateways t)
    then (inl (INTERNAL_SERVER_ERROR "Failed to create gateway"), w)
    else (inr (gateway_row ng (clock w)),
          mkWorld (Some (set_gateways t (gateways t ++ [gateway_row ng (clock w)])))
                  (clock w) (registeredClients w) (emitted w)).
Proof.
  intros Hdb ng. unfold gatewaysRouter.create, bind at 1, now. fold ng.
  unfold bind. rewrite (createGateway_eq w t ng Hdb).
  destruct (existsb _ (gateways t)); reflexivity.
Qed.

Section AfterRegistration.

Variable searchParams_get : string -> string -> option string.

(** X7.  The [Location-Path] a registration answers with is good for
    updates: after a registration of endpoint [E] answered 2.01 with location
    [L], an Update sent to [L] with a query that names [E] is answered
    2.04. *)
Theorem X7_the_location_of_a_registration_takes_updates
    (req req' : Request) (w : World) (E L q : string) :
  searchParams_get (url req) "ep" = Some E ->
  run (handleRegistration searchParams_get req) w
    = mkResponse "2.01" [("Location-Path", L)] ->
  url req' = L ++ "?" ++ q ->
  searchParams_get (url req') "ep" = Some E ->
  run (handleUpdate searchParams_get req')
      (exec (handleRegistration searchParams_get req) w) = mkResponse "2.04" [].
Proof.
  intros Hep Hres Hurl Hep'.
  assert (HE : E <> "").
  { intros ->. revert Hres. unfold run, handleRegistration. rewrite Hep. discriminate. }
  assert (Hpath : forall id, L = "/rd/" ++ id -> update_path_ok (url req') = true).
  { intros id ->. rewrite Hurl, string_app_assoc.
    apply update_path_ok_location.
    apply (pathParts_of_nonempty _ "?"%char id q); [reflexivity|discriminate]. }
  destruct (database w) as [t|] eqn:Hdb.
  2:{ revert Hres. unfold run, handleRegistration. rewrite Hep.
      apply String.eqb_neq in HE. rewrite HE.
      unfold getGatewayByEndpoint, createGateway, bind, getDb, now, ret.
      rewrite Hdb. simpl. rewrite Hdb. discriminate. }
  destruct (find (fun r => (Gateway.endpoint r =? E)%string) (gateways t)) as [g|] eqn:Hfind.
  - revert Hres. unfold run, exec.
    rewrite (handleRegistration_known _ req w t E g Hep HE Hdb Hfind). cbn [fst snd].
    intros Hres. injection Hres as HL.
    erewrite handleUpdate_known; [reflexivity|now apply (Hpath (Gateway.id g))
                                 |exact Hep'|exact HE|reflexivity|].
    cbn [gateways set_gateways]. rewrite find_endpoint_after_status, Hfind. reflexivity.
  - revert Hres. unfold run, exec.
    rewrite (handleRegistration_new _ req w t E Hep HE Hdb Hfind).
    destruct (existsb _ (gateways t)) eqn:Hid; cbn [fst snd]; [discriminate|].
    intros Hres. injection Hres as HL.
    erewrite handleUpdate_known;
      [reflexivity
      |now apply (Hpath (Gateway.id (registration_row E (remoteAddress_of req) (clock w))))
      |exact Hep'|exact HE|reflexivity|].
    cbn [gateways set_gateways]. rewrite find_endpoint_after_status.
    rewrite (find_app_fresh _ _ _ Hfind) by (simpl; apply String.eqb_refl).
    reflexivity.
Qed.

(** X8.  Registering an endpoint that already has a gateway row creates no
    row: the answer is 2.01 with the location of that row, the ids of the
    gateways table are what they were, and the row is now online, seen at
    the time of the request, with the sender's address. *)
Theorem X8_registration_of_a_known_endpoint_reuses_its_row
    (req : Request) (w : World) (E : string) (g : Gateway.t) :
  searchParams_get (url req) "ep" = Some E ->
  E <> "" ->
  run (getGatewayByEndpoint E) w = Some g ->
  let w' := exec (handleRegistration searchParams_get req) w in
  run (handleRegistration searchParams_get req) w
    = mkResponse "2.01" [("Location-Path", "/rd/" ++ Gateway.id g)]
  /\ option_map (fun t => map Gateway.id (gateways t)) (database w')
     = option_map (fun t => map Gateway.id (gateways t)) (database w)
  /\ run (getGatewayByEndpoint E) w'
     = Some (Gateway.mk (Gateway.id g) (Gateway.name g) (Gateway.endpoint g)
                        (Some (remoteAddress_of req)) online (Some (clock w))
                        (Gateway.serialNumber g) (Gateway.ownerId g)
                        (Gateway.createdAt g)).
Proof.
  intros Hep HE Hg. destruct (getGatewayByEndpoint_some _ _ _ Hg) as (t & Hdb & Hfind).
  unfold run at 1, exec.
  rewrite (handleRegistration_known _ req w t E g Hep HE Hdb Hfind). cbn [fst snd].
  repeat split.
  - rewrite Hdb. cbn [database option_map gateways set_gateways].
    now rewrite gateways_after_status_ids.
  - erewrite getGatewayByEndpoint_db by reflexivity. cbn [gateways set_gateways].
    rewrite find_endpoint_after_status, Hfind. simpl. rewrite String.eqb_refl.
    unfold apply_status_update. now rewrite remoteAddress_truthy.
Qed.

(** X9.  A gateway that a registration creates belongs to owner [system]:
    for every other owner, the gateways [listGatewaysByOwner] returns have
    the same ids after any CoAP traffic as before.  A device that registers
    itself never enters an operator's list. *)
Theorem X9_traffic_adds_no_gateway_to_an_operators_list
    (w : World) (trace : list (Z * Request)) (o : string) :
  o <> "system" ->
  map Gateway.id (run (gatewaysRouter.list o) (fold_left (serve searchParams_get) trace w))
  = map Gateway.id (run (gatewaysRouter.list o) w).
Proof.
  intros Ho. unfold gatewaysRouter.list.
  revert w. induction trace as [|tr trace IH]; intros w; simpl; [reflexivity|].
  rewrite IH. rewrite (CoapStep_owner_ids _ _ o (serve_step searchParams_get w tr) Ho).
  unfold run, listGatewaysByOwner, bind, getDb, ret. cbn [set_clock database].
  destruct (database w); reflexivity.
Qed.

(** X10.  A gateway an operator has created for an endpoint is the one a
    later registration of that endpoint uses, at whatever time it comes: the
    registration is answered 2.01 with the location of the operator's
    gateway and creates no other (the ids in the gateways table are the
    same before and after it); the gateway is then listed for the operator
    as online, with [lastSeen] the time of the registration and the
    sender's address. *)
Theorem X10_registration_uses_the_gateway_an_operator_created
    (req : Request) (w : World) (u : string) (input : gatewaysRouter.createInput)
    (g : Gateway.t) (t' : Z) :
  run (gatewaysRouter.create u input) w = inr g ->
  gatewaysRouter.endpoint input <> "" ->
  searchParams_get (url req) "ep" = Some (gatewaysRouter.endpoint input) ->
  let w1 := exec (gatewaysRouter.create u input) w in
  let w2 := exec (handleRegistration searchParams_get req) (set_clock w1 t') in
  run (handleRegistration searchParams_get req) (set_clock w1 t')
    = mkResponse "2.01" [("Location-Path", "/rd/" ++ Gateway.id g)]
  /\ (exists t1 t2, database w1 = Some t1 /\ database w2 = Some t2
                    /\ map Gateway.id (gateways t2) = map Gateway.id (gateways t1))
  /\ In (Gateway.mk (Gateway.id g) (gatewaysRouter.name input)
                    (gatewaysRouter.endpoint input) (Some (remoteAddress_of req))
                    online (Some t') (gatewaysRouter.serialNumber input) u
                    (clock w))
        (run (gatewaysRouter.list u) w2).
Proof.
  intros Hcreate HE Hep w1 w2.
  destruct (database w) as [t|] eqn:Hdb.
  2:{ revert Hcreate. unfold run, gatewaysRouter.create, bind, now.
      rewrite createGateway_none by exact Hdb. discriminate. }
  pose proof (gateways_create_eq w t u input Hdb) as Hmk. cbv zeta in Hmk.
  set (ng := mkNewGateway _ _ _ _ _ _) in Hmk.
  subst w2 w1. unfold run, exec in *.
  rewrite Hmk in *. clear Hmk.
  destruct (existsb _ (gateways t)) eqn:Hex; [discriminate|].
  apply existsb_or_false in Hex. destruct Hex as [_ Hend].
  apply existsb_false_find in Hend. cbn [ng ng_endpoint] in Hend.
  cbn [fst snd] in *. injection Hcreate as <-.
  set (row := gateway_row ng (clock w)).
  set (w1 := mkWorld _ _ _ _).
  assert (Hfind : find (fun r => (Gateway.endpoint r =? gatewaysRouter.endpoint input)%string)
                       (gateways t ++ [row]) = Some row)
    by (apply find_app_fresh; [exact Hend|simpl; apply String.eqb_refl]).
  rewrite (handleRegistration_known _ req (set_clock w1 t') _ _ row Hep HE eq_refl Hfind).
  cbn [fst snd].
  split; [reflexivity|]. split.
  - eexists. eexists. split; [reflexivity|]. split; [reflexivity|].
    cbn [gateways set_gateways]. apply gateways_after_status_ids.
  - unfold gatewaysRouter.list, listGatewaysByOwner, bind, getDb, ret.
    cbn [database fst gateways set_gateways set_clock clock]. apply filter_In. split.
    + unfold gateways_after_status. apply in_map_iff. exists row. split.
      * rewrite String.eqb_refl. unfold apply_status_update.
        rewrite remoteAddress_truthy. reflexivity.
      * apply in_or_app. right. now left.
    + simpl. apply String.eqb_refl.
Qed.

(** X11.  Without a database nobody registers: every request under [/rd] is
    answered 4.00, 4.04 or 5.00 and leaves the world as it was. *)
Theorem X11_without_a_database_nothing_registers (req : Request) (w : World) :
  database w = None ->
  prefix "/rd" (if (url req =? "")%string then "/" else url req) = true ->
  exec (handleCoapRequest searchParams_get req) w = w
  /\ In (code (run (handleCoapRequest searchParams_get req) w)) ["4.00"; "4.04"; "5.00"].
Proof.
  intros Hdb Hrd.
  unfold run, exec, handleCoapRequest. rewrite Hrd.
  unfold handleRegistration, handleUpdate, handleDeregistration,
    getGatewayByEndpoint, createGateway, bind, getDb, now, ret.
  repeat match goal with
         | |- context [if ?b then _ else _] => destruct b
         | |- context [match searchParams_get ?a ?b with _ => _ end] =>
             destruct (searchParams_get a b)
         end;
    simpl; rewrite ?Hdb; simpl; rewrite ?Hdb; simpl; split; auto; tauto.
Qed.

End AfterRegistration.

(** * The gateways table *)

Lemma tables_eta (t : Tables) :
  mkTables (gateways t) (lwm2mResourceValues t) (lwm2mCommands t) (alerts t) = t.
Proof. destruct t; reflexivity. Qed.

Lemma map_unmatched {A} (p : A -> bool) (f : A -> A) (l : list A) :
  find p l = None -> map (fun r => if p r then f r else r) l = l.
Proof.
  induction l as [|a l IH]; simpl; [reflexivity|].
  destruct (p a); [discriminate|]. intros H. now rewrite (IH H).
Qed.

Lemma getGateway_db (w : World) (t : Tables) (id : string) :
  database w = Some t ->
  run (getGateway id) w = find (fun r => (Gateway.id r =? id)%string) (gateways t).
Proof.
  intros Hdb. unfold run, getGateway, bind, getDb, ret. now rewrite Hdb.
Qed.

(** X12.  What [createGateway] returns can be read back: the gateway is
    found under its id and under its endpoint, it starts offline and has
    never been seen. *)
Theorem X12_a_created_gateway_is_found_by_id_and_by_endpoint
    (w : World) (ng : NewGateway) (g : Gateway.t) :
  run (createGateway ng) w = Some g ->
  let w' := exec (createGateway ng) w in
  run (getGateway (ng_id ng)) w' = Some g
  /\ run (getGatewayByEndpoint (ng_endpoint ng)) w' = Some g
  /\ Gateway.status g = offline
  /\ Gateway.lastSeen g = None.
Proof.
  unfold run at 1, exec.
  destruct (database w) as [t|] eqn:Hdb.
  2:{ rewrite createGateway_none by exact Hdb. discriminate. }
  rewrite (createGateway_eq w t ng Hdb).
  destruct (existsb _ (gateways t)) eqn:Hex; cbn [fst snd]; [discriminate|].
  apply existsb_or_false in Hex. destruct Hex as [Hid Hend].
  apply existsb_false_find in Hid. apply existsb_false_find in Hend.
  intros H. injection H as <-.
  erewrite getGateway_db, getGatewayByEndpoint_db by reflexivity.
  cbn [gateways set_gateways].
  rewrite (find_app_fresh _ _ _ Hid), (find_app_fresh _ _ _ Hend)
    by (simpl; apply String.eqb_refl).
  auto.
Qed.

(** X13.  [createGateway] refuses a gateway whose id or whose endpoint is
    already in the table: it returns null and changes nothing. *)
Theorem X13_createGateway_refuses_a_taken_id_or_endpoint
    (w : World) (ng : NewGateway) :
  run (getGateway (ng_id ng)) w <> None
  \/ run (getGatewayByEndpoint (ng_endpoint ng)) w <> None ->
  createGateway ng w = (None, w).
Proof.
  intros Htaken.
  destruct (database w) as [t|] eqn:Hdb.
  2:{ now apply createGateway_none. }
  rewrite (createGateway_eq w t ng Hdb).
  rewrite (getGateway_db w t _ Hdb), (getGatewayByEndpoint_db w t _ Hdb) in Htaken.
  destruct (existsb _ (gateways t)) eqn:Hex; [reflexivity|].
  apply existsb_or_false in Hex. destruct Hex as [Hid Hend].
  apply existsb_false_find in Hid. apply existsb_false_find in Hend.
  tauto.
Qed.

Lemma gateways_updateStatus_unknown
    (w : World) (id : string) (status : GatewayStatus) (ip : option string) :
  run (getGateway id) w = None ->
  gatewaysRouter.updateStatus id status ip w = (true, w).
Proof.
  unfold run, gatewaysRouter.updateStatus, updateGatewayStatus, getGateway,
    bind, getDb, now, putDb, ret.
  destruct (database w) as [t|] eqn:Hdb; cbn [fst]; [|reflexivity].
  intros Hnone.
  rewrite (map_unmatched (fun r => (Gateway.id r =? id)%string) _ _ Hnone).
  unfold set_gateways. rewrite tables_eta, <- Hdb. now rewrite world_eta.
Qed.


(** * Resource values *)

Lemma recordResourceValue_some (w : World) (nv : NewResourceValue) (row : ResourceValue.t) :
  run (recordResourceValue nv) w = Some row ->
  exists t, database w = Some t
    /\ row = ResourceValue.mk (nv_id nv) (nv_resourceId nv) (nv_gatewayId nv) (nv_value nv)
               (match nv_timestamp nv with Some ts => ts | None => clock w end) (clock w)
    /\ exec (recordResourceValue nv) w
       = mkWorld (Some (set_lwm2mResourceValues t (lwm2mResourceValues t ++ [row])))
                 (clock w) (registeredClients w) (emitted w).
Proof.
  unfold run, exec, recordResourceValue, bind, getDb, now, putDb, ret.
  destruct (database w) as [t|] eqn:Hdb; cbn [fst snd]; [|discriminate].
  unfold insert_lwm2mResourceValues.
  destruct (existsb _ (lwm2mResourceValues t)) eqn:Hex; cbn [fst snd]; [discriminate|].
  apply existsb_false_find in Hex.
  rewrite hd_error_filter. cbn [lwm2mResourceValues set_lwm2mResourceValues].
  rewrite (find_app_fresh _ _ _ Hex) by (simpl; apply String.eqb_refl).
  intros H. injection H as <-. exists t. auto.
Qed.


(** X15.  A newer observation does not move the query: when
    [getLatestResourceValue] answers with a row and a value is recorded for
    the same resource with a timestamp that is not smaller, the query
    afterwards answers with a row of the timestamp it had before. *)
Theorem X15_a_newer_value_does_not_move_the_latest_query
    (w : World) (nv : NewResourceValue) (v row : ResourceValue.t) :
  run (getLatestResourceValue (nv_resourceId nv)) w = Some v ->
  run (recordResourceValue nv) w = Some row ->
  ResourceValue.timestamp v <= ResourceValue.timestamp row ->
  option_map ResourceValue.timestamp
    (run (getLatestResourceValue (nv_resourceId nv)) (exec (recordResourceValue nv) w))
  = Some (ResourceValue.timestamp v).
Proof.
  intros Hv Hrow Hle.
  destruct (recordResourceValue_some w nv row Hrow) as (t & Hdb & Hrow_eq & Hw').
  pose proof (getLatestResourceValue_least w t (nv_resourceId nv) Hdb) as Hold.
  rewrite Hv in Hold. destruct Hold as (Hvin & Hvr & Hvmin).
  rewrite Hw'.
  set (w' := mkWorld _ _ _ _).
  pose proof (getLatestResourceValue_least w' _ (nv_resourceId nv) eq_refl) as Hnew.
  cbn [lwm2mResourceValues set_lwm2mResourceValues] in Hnew.
  destruct (run (getLatestResourceValue (nv_resourceId nv)) w') as [v'|].
  - destruct Hnew as (Hin' & Hr' & Hmin'). simpl. f_equal.
    assert (ResourceValue.timestamp v' <= ResourceValue.timestamp v)
      by (apply Hmin'; [apply in_or_app; now left|exact Hvr]).
    apply in_app_or in Hin'. destruct Hin' as [Hin'|[<-|[]]].
    + specialize (Hvmin v' Hin' Hr'). lia.
    + lia.
  - exfalso. apply (Hnew v); [apply in_or_app; now left|exact Hvr].
Qed.

(** X16.  The first value recorded for a resource is what the query answers
    with. *)
Theorem X16_the_first_value_of_a_resource_is_read_back
    (w : World) (nv : NewResourceValue) (row : ResourceValue.t) :
  run (getLatestResourceValue (nv_resourceId nv)) w = None ->
  run (recordResourceValue nv) w = Some row ->
  run (resources.getValue (nv_resourceId nv) (nv_gatewayId nv))
      (exec (recordResourceValue nv) w) = Some row.
Proof.
  intros Hnone Hrow.
  destruct (recordResourceValue_some w nv row Hrow) as (t & Hdb & Hrow_eq & Hw').
  pose proof (getLatestResourceValue_least w t (nv_resourceId nv) Hdb) as Hold.
  rewrite Hnone in Hold.
  rewrite Hw'. unfold resources.getValue.
  unfold run, getLatestResourceValue, bind, getDb, ret.
  cbn [database fst lwm2mResourceValues set_lwm2mResourceValues].
  rewrite filter_app.
  assert (Hfil : filter (fun r => (ResourceValue.resourceId r =? nv_resourceId nv)%string)
                        (lwm2mResourceValues t) = []).
  { destruct (filter _ (lwm2mResourceValues t)) as [|x l] eqn:Hf; [reflexivity|].
    assert (Hx : In x (x :: l)) by now left.
    rewrite <- Hf in Hx. apply filter_In in Hx. destruct Hx as [Hx Hr].
    apply String.eqb_eq in Hr. now destruct (Hold x Hx). }
  rewrite Hfil. subst row. simpl. now rewrite String.eqb_refl.
Qed.



(** * Commands *)

Lemma commands_create_eq (w : World) (input : commands.createInput) :
  let id := "cmd-" ++ commands.gatewayId input ++ "-" ++ commands.resourceId input
            ++ "-" ++ string_of_Z (clock w) in
  let row := Command.mk id (commands.gatewayId input) (commands.resourceId input)
                        (commands.commandType input) (commands.value input)
                        pending None (clock w) None in
  commands.create input w =
    match database w with
    | None => (inl (INTERNAL_SERVER_ERROR "Failed to create command"), w)
    | Some t =>
        if existsb (fun r => (Command.id r =? id)%string) (lwm2mCommands t)
           || negb (fits_varchar 64 id
                    && fits_varchar 64 (commands.gatewayId input)
                    && fits_varchar 64 (commands.resourceId input))
        then (inl (INTERNAL_SERVER_ERROR "Failed to create command"), w)
        else (inr row,
              mkWorld (Some (set_lwm2mCommands t (lwm2mCommands t ++ [row])))
                      (clock w) (registeredClients w) (emitted w))
    end.
Proof.
  intros id row.
  unfold commands.create, createCommand, bind, getDb, now, putDb, ret.
  fold id. destruct (database w) as [t|] eqn:Hdb; [|reflexivity].
  unfold insert_lwm2mCommands, command_fits.
  cbn [nc_id nc_gatewayId nc_resourceId nc_commandType nc_value nc_status].
  fold row.
  destruct (existsb _ (lwm2mCommands t)) eqn:Hex; [reflexivity|].
  cbn [orb].
  destruct (negb _); [reflexivity|].
  apply existsb_false_find in Hex.
  rewrite hd_error_filter. cbn [lwm2mCommands set_lwm2mCommands].
  rewrite (find_app_fresh _ _ row Hex) by (simpl; apply String.eqb_refl).
  reflexivity.
Qed.

Lemma getCommand_db (w : World) (t : Tables) (id : string) :
  database w = Some t ->
  run (getCommand id) w = find (fun r => (Command.id r =? id)%string) (lwm2mCommands t).
Proof.
  intros Hdb. unfold run, getCommand, bind, getDb, ret. now rewrite Hdb.
Qed.


(** X19.  A command that [commands.create] has returned is what
    [commands.get] returns under its id: pending, without error and not
    completed. *)
Theorem X19_a_created_command_is_read_back
    (w : World) (input : commands.createInput) (c : Command.t) :
  run (commands.create input) w = inr c ->
  run (commands.get (Command.id c)) (exec (commands.create input) w) = inr c
  /\ Command.status c = pending
  /\ Command.error c = None
  /\ Command.completedAt c = None.
Proof.
  unfold run at 1, exec. rewrite commands_create_eq. cbv zeta.
  destruct (database w) as [t|] eqn:Hdb; cbn [fst]; [|discriminate].
  destruct (existsb _ (lwm2mCommands t) || negb _) eqn:Hex; cbn [fst snd]; [discriminate|].
  apply orb_false_elim in Hex. destruct Hex as [Hex _].
  intros H. injection H as <-. cbn [Command.id Command.status Command.error Command.completedAt].
  repeat split.
  unfold run, commands.get, bind. 
  set (w1 := mkWorld _ _ _ _).
  pose proof (getCommand_db w1 _ ("cmd-" ++ commands.gatewayId input ++ "-"
                ++ commands.resourceId input ++ "-" ++ string_of_Z (clock w)) eq_refl) as Hget.
  unfold run in Hget.
  destruct (getCommand _ w1) as [c' w1'] eqn:Hgc. cbn [fst] in Hget. subst c'.
  cbn [lwm2mCommands set_lwm2mCommands].
  apply existsb_false_find in Hex.
  rewrite (find_app_fresh _ _ _ Hex) by (simpl; apply String.eqb_refl).
  reflexivity.
Qed.

Lemma updateStatus_eq (w : World) (t : Tables) (id : string) (s : CommandStatus)
    (e : option string) :
  database w = Some t ->
  commands.updateStatus id s e w =
    (true,
     mkWorld (Some (set_lwm2mCommands t
                (map (fun r => if (Command.id r =? id)%string
                               then apply_command_update s e (clock w) r else r)
                     (lwm2mCommands t))))
             (clock w) (registeredClients w) (emitted w)).
Proof.
  intros Hdb. unfold commands.updateStatus, updateCommandStatus, bind, getDb, now, putDb, ret.
  now rewrite Hdb.
Qed.

Lemma commands_updateStatus_unknown
    (w : World) (id : string) (s : CommandStatus) (e : option string) :
  run (getCommand id) w = None ->
  commands.updateStatus id s e w = (true, w).
Proof.
  intros Hnone. destruct (database w) as [t|] eqn:Hdb.
  - rewrite (updateStatus_eq w t id s e Hdb).
    rewrite (getCommand_db w t id Hdb) in Hnone.
    rewrite (map_unmatched (fun r => (Command.id r =? id)%string) _ _ Hnone).
    unfold set_lwm2mCommands. rewrite tables_eta, <- Hdb. now rewrite world_eta.
  - unfold commands.updateStatus, updateCommandStatus, bind, getDb, ret. now rewrite Hdb.
Qed.

Lemma updateStatus_row (w : World) (id : string) (c : Command.t)
    (t : Z) (s : CommandStatus) (e : option string) :
  run (getCommand id) w = Some c ->
  run (getCommand id) (exec (at_time t (commands.updateStatus id s e)) w)
  = Some (apply_command_update s e t c).
Proof.
  intros Hc. destruct (database w) as [tb|] eqn:Hdb.
  2:{ revert Hc. unfold run, getCommand, bind, getDb, ret. rewrite Hdb. discriminate. }
  rewrite (getCommand_db w tb id Hdb) in Hc.
  unfold exec, at_time. rewrite (updateStatus_eq (set_clock w t) tb id s e Hdb).
  cbn [snd]. erewrite getCommand_db by reflexivity.
  cbn [lwm2mCommands set_lwm2mCommands clock set_clock].
  rewrite find_map_preserved
    by (intros x; destruct (Command.id x =? id)%string eqn:E; simpl; now rewrite ?E).
  rewrite Hc. simpl.
  assert (Hid : (Command.id c =? id)%string = true) by (apply find_some in Hc; tauto).
  now rewrite Hid.
Qed.

(** X20.  Status updates never change what a command is and never clear
    what they once wrote: through any sequence of updates the command keeps
    its gateway, resource, type, value and creation time, and a
    [completedAt] or an [error] that is set stays set. *)
Theorem X20_updates_keep_the_command_and_never_clear_completedAt_or_error
    (w : World) (id : string) (c : Command.t)
    (us : list (Z * CommandStatus * option string)) :
  run (getCommand id) w = Some c ->
  exists c',
    run (getCommand id) (exec (updateStatus_all id us) w) = Some c'
    /\ Command.gatewayId c' = Command.gatewayId c
    /\ Command.resourceId c' = Command.resourceId c
    /\ Command.commandType c' = Command.commandType c
    /\ Command.value c' = Command.value c
    /\ Command.createdAt c' = Command.createdAt c
    /\ (Command.completedAt c <> None -> Command.completedAt c' <> None)
    /\ (Command.error c <> None -> Command.error c' <> None).
Proof.
  revert w c. induction us as [|[[t s] e] us IH]; intros w c Hc; simpl.
  - exists c. repeat split; auto.
  - rewrite exec_bind.
    pose proof (updateStatus_row w id c t s e Hc) as Hstep.
    destruct (IH _ _ Hstep) as (c' & Hc' & Hg & Hr & Hty & Hv & Hcr & Hco & Her).
    exists c'. split; [exact Hc'|].
    repeat split; try (etransitivity; [eassumption|reflexivity]).
    + intros H. apply Hco. simpl. destruct s; congruence.
    + intros H. apply Her. simpl. destruct (truthy e) eqn:Ht; [|exact H].
      destruct e; [discriminate|discriminate].
Qed.


(** * Alerts *)

Lemma resolve_eq (w : World) (t : Tables) (id : string) :
  database w = Some t ->
  alertsRouter.resolve id w =
    (true,
     mkWorld (Some (set_alerts t
                (map (fun r => if (Alert.id r =? id)%string
                               then apply_resolve (clock w) r else r) (alerts t))))
             (clock w) (registeredClients w) (emitted w)).
Proof.
  intros Hdb. unfold alertsRouter.resolve, resolveAlert, bind, getDb, now, putDb, ret.
  now rewrite Hdb.
Qed.

Lemma createAlert_some (w : World) (a : NewAlert) (row : Alert.t) :
  run (createAlert a) w = Some row ->
  exists t, database w = Some t
    /\ row = Alert.mk (na_id a) (na_gatewayId a) (na_alertType a) (na_severity a)
                      (na_message a) false (clock w) None
    /\ exec (createAlert a) w
       = mkWorld (Some (set_alerts t (alerts t ++ [row])))
                 (clock w) (registeredClients w) (emitted w).
Proof.
  unfold run, exec, createAlert, bind, getDb, now, putDb, ret.
  destruct (database w) as [t|] eqn:Hdb; cbn [fst snd]; [|discriminate].
  unfold insert_alerts.
  destruct (existsb _ (alerts t)) eqn:Hex; cbn [fst snd]; [discriminate|].
  apply existsb_false_find in Hex.
  rewrite hd_error_filter. cbn [alerts set_alerts].
  rewrite (find_app_fresh _ _ _ Hex) by (simpl; apply String.eqb_refl).
  intros H. injection H as <-. exists t. auto.
Qed.

(** X22.  An alert that [createAlert] has returned is unresolved and is
    listed: by [alerts.list] for its gateway, with or without the unresolved
    filter, and by [alerts.list] without any filter. *)
Theorem X22_a_created_alert_is_listed
    (w : World) (a : NewAlert) (row : Alert.t) :
  run (createAlert a) w = Some row ->
  let w' := exec (createAlert a) w in
  Alert.isResolved row = false
  /\ In row (run (alertsRouter.list (Some (na_gatewayId a)) (Some true)) w')
  /\ In row (run (alertsRouter.list (Some (na_gatewayId a)) None) w')
  /\ In row (run (alertsRouter.list None None) w').
Proof.
  intros Hrow w'.
  destruct (createAlert_some w a row Hrow) as (t & Hdb & Hrow_eq & Hw').
  subst w'. rewrite Hw'.
  unfold run, alertsRouter.list, listAlerts, bind, getDb, ret.
  cbn [database fst alerts set_alerts truthy].
  split; [subst row; reflexivity|].
  destruct (na_gatewayId a =? "")%string; cbn [negb];
    repeat split; apply filter_In; (split; [apply in_or_app; right; now left|]);
    subst row; simpl; now rewrite ?String.eqb_refl.
Qed.

(** X23.  After [alerts.resolve] the alert is in no list of unresolved
    alerts, and it is still in the table: resolved, stamped with the time of
    the call, and returned by the unfiltered [alerts.list]. *)
Theorem X23_a_resolved_alert_leaves_the_unresolved_list_only
    (w : World) (id : string) (a : Alert.t) :
  alertRow id w = Some a ->
  let w' := exec (alertsRouter.resolve id) w in
  (forall gatewayId x,
     In x (run (alertsRouter.list gatewayId (Some true)) w') -> Alert.id x <> id)
  /\ In (apply_resolve (clock w) a) (run (alertsRouter.list None None) w').
Proof.
  unfold alertRow. destruct (database w) as [t|] eqn:Hdb; [|discriminate].
  intros Hfind. unfold exec. rewrite (resolve_eq w t id Hdb). cbn [snd].
  unfold run, alertsRouter.list, listAlerts, bind, getDb, ret.
  cbn [database fst alerts set_alerts]. split.
  - intros g x Hin. apply filter_In in Hin. destruct Hin as [Hin Hp].
    apply in_map_iff in Hin. destruct Hin as (r & Hr & _).
    apply andb_true_iff in Hp. destruct Hp as [_ Hp].
    intros Hid. destruct (Alert.id r =? id)%string eqn:E.
    + subst x. discriminate.
    + subst x. apply String.eqb_neq in E. congruence.
  - apply filter_In. split; [|reflexivity].
    apply in_map_iff. exists a. apply find_some in Hfind. destruct Hfind as [Hin Hid].
    rewrite Hid. auto.
Qed.

Lemma alerts_resolve_unknown (w : World) (id : string) :
  alertRow id w = None ->
  alertsRouter.resolve id w = (true, w).
Proof.
  unfold alertRow. destruct (database w) as [t|] eqn:Hdb.
  - intros Hnone. rewrite (resolve_eq w t id Hdb).
    rewrite (map_unmatched (fun r => (Alert.id r =? id)%string) _ _ Hnone).
    unfold set_alerts. rewrite tables_eta, <- Hdb. now rewrite world_eta.
  - intros _. unfold alertsRouter.resolve, resolveAlert, bind, getDb, ret. now rewrite Hdb.
Qed.

(** X24.  The three updates by id of the router report success also when
    nothing has that id, and then change nothing: [gateways.updateStatus] for
    an unknown gateway, [commands.updateStatus] for an unknown command and
    [alerts.resolve] for an unknown alert all return [{ success: true }] and
    leave the world as it was. *)
Theorem X24_updates_of_unknown_ids_report_success_and_change_nothing
    (w : World) (id : string) (status : GatewayStatus) (ip : option string)
    (s : CommandStatus) (e : option string) :
  (run (getGateway id) w = None ->
   gatewaysRouter.updateStatus id status ip w = (true, w))
  /\ (run (getCommand id) w = None ->
      commands.updateStatus id s e w = (true, w))
  /\ (alertRow id w = None ->
      alertsRouter.resolve id w = (true, w)).
Proof.
  repeat split.
  - apply gateways_updateStatus_unknown.
  - apply commands_updateStatus_unknown.
  - apply alerts_resolve_unknown.
Qed.

(** * Accounts *)

Lemma find_users_mapped (p : User.t -> bool) (cond : User.t -> bool) (f : User.t -> User.t)
    (l : list User.t) :
  (forall u, p (f u) = p u) ->
  find p (map (fun u => if cond u then f u else u) l)
  = option_map (fun u => if cond u then f u else u) (find p l).
Proof.
  intros Hp. apply find_map_preserved. intros u. destruct (cond u); [apply Hp|reflexivity].
Qed.

Section Accounts.

Variable bcrypt_hash : string -> nat -> string.
Variable bcrypt_compare : string -> string -> bool.
Variable randomHex : nat -> nat -> string.

(** What bcrypt promises: a password verifies against each of its hashes. *)
Hypothesis bcrypt_verifies : forall password n,
  bcrypt_compare password (bcrypt_hash password n) = true.

(** X25.  [authenticateUser] answers with a user only when a user of that
    name exists, is active, and the password verifies against the stored
    hash; the answer carries that user's id, name and email.  When it
    answers null it has changed nothing. *)
Theorem X25_authenticateUser_only_lets_active_users_with_the_password_in
    (username password : string) (aw : AuthWorld) :
  match fst (authenticateUser bcrypt_compare username password aw) with
  | Some au =>
      exists user,
        getUserByUsername username aw = Some user
        /\ User.isActive user = true
        /\ bcrypt_compare password (User.passwordHash user) = true
        /\ au = mkAuthUser (User.id user) username (User.email user)
  | None => snd (authenticateUser bcrypt_compare username password aw) = aw
  end.
Proof.
  unfold authenticateUser, getUserByUsername, verifyPassword.
  destruct (database (world aw)); [|reflexivity].
  destruct (find _ (users aw)) as [user|] eqn:Hfind; [|reflexivity].
  destruct (User.isActive user) eqn:Hact; [|reflexivity].
  destruct (bcrypt_compare password (User.passwordHash user)) eqn:Hpw; [|reflexivity].
  simpl. exists user. repeat split; auto.
  apply find_some in Hfind. destruct Hfind as [_ Hname].
  apply String.eqb_eq in Hname. now rewrite Hname.
Qed.

(** X26.  A deactivated user cannot sign in: once [deactivateUser] has run
    on the id of the user found under a name, [authenticateUser] answers
    null for that name whatever the password, and [listUsers] has no user of
    that id. *)
Theorem X26_a_deactivated_user_cannot_sign_in
    (username password : string) (aw : AuthWorld) (user : User.t) :
  getUserByUsername username aw = Some user ->
  let aw' := deactivateUser (User.id user) aw in
  authenticateUser bcrypt_compare username password aw' = (None, aw')
  /\ forall u, In u (listUsers aw') -> User.id u <> User.id user.
Proof.
  unfold getUserByUsername, deactivateUser, authenticateUser, listUsers.
  destruct (database (world aw)) as [t|] eqn:Hdb; [|discriminate].
  intros Hfind. cbn [update_users set_users world users]. rewrite Hdb. split.
  - rewrite find_users_mapped by reflexivity. rewrite Hfind. simpl.
    now rewrite String.eqb_refl.
  - intros u Hin. apply filter_In in Hin. destruct Hin as [Hin Hact].
    apply in_map_iff in Hin. destruct Hin as (r & Hr & _).
    intros Hid. destruct (User.id r =? User.id user)%string eqn:E.
    + subst u. discriminate.
    + subst u. apply String.eqb_neq in E. congruence.
Qed.

(** X27.  [changeUsername] refuses a name that some user has, the user's own
    name included, and changes nothing; a free name is given to the user of
    the id, who is from then on found under it. *)
Theorem X27_changeUsername_refuses_a_taken_name
    (userId newUsername : string) (aw : AuthWorld) (t : Tables) (user : User.t) :
  database (world aw) = Some t ->
  find (fun u => (User.id u =? userId)%string) (users aw) = Some user ->
  match getUserByUsername newUsername aw with
  | Some _ => changeUsername userId newUsername aw = (false, aw)
  | None =>
      fst (changeUsername userId newUsername aw) = true
      /\ getUserByUsername newUsername (snd (changeUsername userId newUsername aw))
         = Some (with_username newUsername (clock (world aw)) user)
      /\ getUserById userId (snd (changeUsername userId newUsername aw))
         = Some (mkAuthUser userId newUsername (User.email user))
  end.
Proof.
  intros Hdb Hid. unfold getUserByUsername, changeUsername, getUserById. rewrite Hdb.
  destruct (find (fun u => (User.username u =? newUsername)%string) (users aw))
    as [other|] eqn:Hname; [reflexivity|].
  cbn [fst snd update_users set_users world users]. rewrite Hdb.
  split; [reflexivity|]. split.
  - clear - Hid Hname. induction (users aw) as [|a l IH]; simpl in *; [discriminate|].
    destruct (User.id a =? userId)%string eqn:Ea.
    + injection Hid as <-. simpl. now rewrite String.eqb_refl.
    + destruct (User.username a =? newUsername)%string; [discriminate|]. auto.
  - rewrite find_users_mapped by reflexivity. rewrite Hid. simpl.
    assert (Hu : (User.id user =? userId)%string = true) by (apply find_some in Hid; tauto).
    rewrite Hu. simpl. apply String.eqb_eq in Hu. now rewrite Hu.
Qed.

(** X28.  [resetPasswordWithToken] never looks at the token: for a user
    found under the email, any token at all sets the new password, and the
    user, when active, signs in with it. *)
Theorem X28_any_token_resets_the_password
    (email resetToken newPassword : string) (aw : AuthWorld) (t : Tables) (user : User.t) :
  database (world aw) = Some t ->
  find (email_is email) (users aw) = Some user ->
  getUserByUsername (User.username user) aw = Some user ->
  User.isActive user = true ->
  let aw' := snd (resetPasswordWithToken bcrypt_hash email resetToken newPassword aw) in
  fst (resetPasswordWithToken bcrypt_hash email resetToken newPassword aw) = true
  /\ fst (authenticateUser bcrypt_compare (User.username user) newPassword aw')
     = Some (mkAuthUser (User.id user) (User.username user) (User.email user)).
Proof.
  intros Hdb Hemail Hname Hact.
  unfold getUserByUsername in Hname. rewrite Hdb in Hname.
  unfold resetPasswordWithToken, authenticateUser, hashPassword, verifyPassword.
  rewrite Hdb, Hemail. cbn [fst snd update_users set_users world users].
  split; [reflexivity|]. rewrite Hdb.
  rewrite find_users_mapped by reflexivity. rewrite Hname. simpl.
  assert (He : email_is email user = true) by (apply find_some in Hemail; tauto).
  rewrite He. simpl. rewrite Hact, bcrypt_verifies. reflexivity.
Qed.


(** X30.  [changePassword] with a wrong current password answers false and
    changes nothing; with the right one it answers true, and the user, when
    active, signs in with the new password. *)
Theorem X30_changePassword_needs_the_current_password
    (userId currentPassword newPassword : string) (aw : AuthWorld) (t : Tables)
    (user : User.t) :
  database (world aw) = Some t ->
  find (fun u => (User.id u =? userId)%string) (users aw) = Some user ->
  getUserByUsername (User.username user) aw = Some user ->
  User.isActive user = true ->
  let r := changePassword bcrypt_hash bcrypt_compare userId currentPassword newPassword aw in
  if bcrypt_compare currentPassword (User.passwordHash user)
  then fst r = true
       /\ fst (authenticateUser bcrypt_compare (User.username user) newPassword (snd r))
          = Some (mkAuthUser (User.id user) (User.username user) (User.email user))
  else r = (false, aw).
Proof.
  intros Hdb Hid Hname Hact.
  unfold getUserByUsername in Hname. rewrite Hdb in Hname.
  unfold changePassword, authenticateUser, hashPassword, verifyPassword.
  rewrite Hdb, Hid. cbv zeta.
  destruct (bcrypt_compare currentPassword (User.passwordHash user)); [|reflexivity].
  cbn [negb fst snd update_users set_users world users].
  split; [reflexivity|]. rewrite Hdb.
  rewrite find_users_mapped by reflexivity. rewrite Hname. simpl.
  assert (Hu : (User.id user =? userId)%string = true) by (apply find_some in Hid; tauto).
  rewrite Hu. simpl. rewrite Hact, bcrypt_verifies. reflexivity.
Qed.

End Accounts.

(** * The further properties on examples *)

(** X1 on an example. *)
Lemma X1_witness :
  let req := mkRequest "DELETE" "/rd?ep=dev1" from_device in
  let w := world_registered in
  let w' := exec (handleDeregistration plain_searchParams_get req) w in
  plain_searchParams_get (url req) "ep" = Some "dev1"
  /\ "dev1" <> ""
  /\ run (getGatewayByEndpoint "dev1") w = Some dev1_online
  /\ run (handleDeregistration plain_searchParams_get req) w = mkResponse "2.02" []
  /\ isClientRegistered "dev1" w' = false
  /\ run (getGatewayByEndpoint "dev1") w'
     = Some (Gateway.mk "gw-dev1-0" "dev1" "dev1" (Some "10.0.0.7") offline (Some 0)
                        (Some "dev1") "system" 0)
  /\ emitted w' = (emitted w ++ [client_deregistered "dev1"])%list.
Proof.
  intros req w w'. split; [reflexivity|]. split; [discriminate|]. split; [reflexivity|].
  exact (X1_deregistration_takes_the_endpoint_out plain_searchParams_get req w "dev1"
           dev1_online eq_refl ltac:(discriminate) eq_refl).
Defined.

(** X2 on an example. *)
Lemma X2_witness :
  let req := mkRequest "DELETE" "/rd?ep=ghost" from_device in
  let w := world_registered in
  (forall E, plain_searchParams_get (url req) "ep" = Some E -> E <> "" ->
             run (getGatewayByEndpoint E) w = None)
  /\ handleDeregistration plain_searchParams_get req w = (mkResponse "4.04" [], w).
Proof.
  intros req w.
  assert (H : forall E, plain_searchParams_get (url req) "ep" = Some E -> E <> "" ->
                        run (getGatewayByEndpoint E) w = None).
  { intros E HE _. change (Some "ghost" = Some E) in HE. injection HE as <-. reflexivity. }
  split; [exact H|].
  exact (X2_deregistration_of_an_unknown_endpoint plain_searchParams_get req w H).
Defined.

(** X3 on an example. *)
Lemma X3_witness :
  let req := mkRequest "PUT" "/rd?ep=dev1" from_device in
  url req = "/rd" ++ "?ep=dev1"
  /\ occurs "/"%char "?ep=dev1" = false
  /\ isClientRegistered "dev1" world_registered = true
  /\ handleUpdate plain_searchParams_get req world_registered
     = (mkResponse "4.04" [], world_registered).
Proof.
  intros req. split; [reflexivity|]. split; [reflexivity|]. split; [reflexivity|].
  exact (X3_update_on_the_registration_path_is_not_found plain_searchParams_get req
           world_registered "?ep=dev1" eq_refl eq_refl).
Defined.

(** The world with an empty database is consistent. *)
Lemma freshWorld_consistent : registry_consistent freshWorld.
Proof.
  split; [constructor|]. split; [split; constructor|]. intros E H. discriminate.
Defined.

(** X4 on an example. *)
Lemma X4_witness :
  registry_consistent freshWorld
  /\ registry_consistent (fold_left (serve plain_searchParams_get) example_traffic freshWorld).
Proof.
  split; [exact freshWorld_consistent|].
  exact (X4_traffic_keeps_registry_and_database_in_step plain_searchParams_get
           freshWorld example_traffic freshWorld_consistent).
Defined.

(** X5 on an example. *)
Lemma X5_witness :
  database freshWorld = Some emptyTables
  /\ gateways_wf emptyTables
  /\ exists t', database (fold_left (serve plain_searchParams_get) example_traffic freshWorld)
                = Some t'
                /\ gateways_wf t'.
Proof.
  assert (Hwf : gateways_wf emptyTables) by (split; constructor).
  split; [reflexivity|]. split; [exact Hwf|].
  exact (X5_traffic_keeps_gateway_keys_unique plain_searchParams_get freshWorld
           emptyTables example_traffic eq_refl Hwf).
Defined.

(** X7 on an example. *)
Lemma X7_witness :
  let req := mkRequest "POST" "/rd?ep=dev1&lt=60" from_device in
  let req' := mkRequest "PUT" "/rd/gw-dev1-0?ep=dev1" from_device in
  plain_searchParams_get (url req) "ep" = Some "dev1"
  /\ run (handleRegistration plain_searchParams_get req) freshWorld
     = mkResponse "2.01" [("Location-Path", "/rd/gw-dev1-0")]
  /\ url req' = "/rd/gw-dev1-0" ++ "?" ++ "ep=dev1"
  /\ plain_searchParams_get (url req') "ep" = Some "dev1"
  /\ run (handleUpdate plain_searchParams_get req')
         (exec (handleRegistration plain_searchParams_get req) freshWorld)
     = mkResponse "2.04" [].
Proof.
  intros req req'. repeat (split; [reflexivity|]).
  exact (X7_the_location_of_a_registration_takes_updates plain_searchParams_get req req'
           freshWorld "dev1" "/rd/gw-dev1-0" "ep=dev1" eq_refl eq_refl eq_refl eq_refl).
Defined.

(** X8 on an example. *)
Lemma X8_witness :
  let req := mkRequest "POST" "/rd?ep=dev1&lt=60" (Some (mkRsInfo "10.0.0.8" 5683)) in
  let w := set_clock world_deregistered 2000 in
  let w' := exec (handleRegistration plain_searchParams_get req) w in
  plain_searchParams_get (url req) "ep" = Some "dev1"
  /\ "dev1" <> ""
  /\ run (getGatewayByEndpoint "dev1") w = Some dev1_offline
  /\ run (handleRegistration plain_searchParams_get req) w
     = mkResponse "2.01" [("Location-Path", "/rd/" ++ "gw-dev1-0")]
  /\ option_map (fun t => map Gateway.id (gateways t)) (database w')
     = option_map (fun t => map Gateway.id (gateways t)) (database w)
  /\ run (getGatewayByEndpoint "dev1") w'
     = Some (Gateway.mk "gw-dev1-0" "dev1" "dev1" (Some "10.0.0.8") online (Some 2000)
                        (Some "dev1") "system" 0).
Proof.
  intros req w w'. split; [reflexivity|]. split; [discriminate|]. split; [reflexivity|].
  exact (X8_registration_of_a_known_endpoint_reuses_its_row plain_searchParams_get req w
           "dev1" dev1_offline eq_refl ltac:(discriminate) eq_refl).
Defined.

(** X9 on an example. *)
Lemma X9_witness :
  "operator-1" <> "system"
  /\ map Gateway.id (run (gatewaysRouter.list "operator-1")
                         (fold_left (serve plain_searchParams_get) example_traffic freshWorld))
     = map Gateway.id (run (gatewaysRouter.list "operator-1") freshWorld).
Proof.
  split; [discriminate|].
  exact (X9_traffic_adds_no_gateway_to_an_operators_list plain_searchParams_get freshWorld
           example_traffic "operator-1" ltac:(discriminate)).
Defined.

(** X10 on an example: the operator creates the gateway of [dev9] at time 0,
    the device registers at time 7000. *)
Lemma X10_witness :
  let input := gatewaysRouter.mkCreateInput "Depot gateway" "dev9" None (Some "SN-9") in
  let g := Gateway.mk "gw-dev9-0" "Depot gateway" "dev9" None offline None (Some "SN-9")
                      "operator-1" 0 in
  let req := mkRequest "POST" "/rd?ep=dev9&lt=60" from_device in
  let w1 := exec (gatewaysRouter.create "operator-1" input) freshWorld in
  let w2 := exec (handleRegistration plain_searchParams_get req) (set_clock w1 7000) in
  run (gatewaysRouter.create "operator-1" input) freshWorld = inr g
  /\ gatewaysRouter.endpoint input <> ""
  /\ plain_searchParams_get (url req) "ep" = Some (gatewaysRouter.endpoint input)
  /\ run (handleRegistration plain_searchParams_get req) (set_clock w1 7000)
     = mkResponse "2.01" [("Location-Path", "/rd/" ++ Gateway.id g)]
  /\ (exists t1 t2, database w1 = Some t1 /\ database w2 = Some t2
                    /\ map Gateway.id (gateways t2) = map Gateway.id (gateways t1))
  /\ In (Gateway.mk "gw-dev9-0" "Depot gateway" "dev9" (Some "10.0.0.7") online (Some 7000)
                    (Some "SN-9") "operator-1" 0)
        (run (gatewaysRouter.list "operator-1") w2).
Proof.
  intros input g req w1 w2. split; [reflexivity|]. split; [discriminate|].
  split; [reflexivity|].
  exact (X10_registration_uses_the_gateway_an_operator_created plain_searchParams_get req
           freshWorld "operator-1" input g 7000 eq_refl ltac:(discriminate) eq_refl).
Defined.

(** X11 on an example. *)
Lemma X11_witness :
  let req := mkRequest "POST" "/rd?ep=dev1&lt=60" from_device in
  let w := mkWorld None 0 [] [] in
  database w = None
  /\ prefix "/rd" (if (url req =? "")%string then "/" else url req) = true
  /\ exec (handleCoapRequest plain_searchParams_get req) w = w
  /\ In (code (run (handleCoapRequest plain_searchParams_get req) w))
        ["4.00"; "4.04"; "5.00"].
Proof.
  intros req w. split; [reflexivity|]. split; [reflexivity|].
  exact (X11_without_a_database_nothing_registers plain_searchParams_get req w
           eq_refl eq_refl).
Defined.

(** X12 on an example. *)
Lemma X12_witness :
  let ng := mkNewGateway "gw-7" "Yard" "dev7" None "operator-1" None in
  let g := Gateway.mk "gw-7" "Yard" "dev7" None offline None None "operator-1" 0 in
  let w' := exec (createGateway ng) world_registered in
  run (createGateway ng) world_registered = Some g
  /\ run (getGateway (ng_id ng)) w' = Some g
  /\ run (getGatewayByEndpoint (ng_endpoint ng)) w' = Some g
  /\ Gateway.status g = offline
  /\ Gateway.lastSeen g = None.
Proof.
  intros ng g w'. split; [reflexivity|].
  exact (X12_a_created_gateway_is_found_by_id_and_by_endpoint world_registered ng g eq_refl).
Defined.

(** X13 on an example. *)
Lemma X13_witness :
  let ng := mkNewGateway "gw-other" "Second" "dev1" None "operator-1" None in
  (run (getGateway (ng_id ng)) world_registered <> None
   \/ run (getGatewayByEndpoint (ng_endpoint ng)) world_registered <> None)
  /\ createGateway ng world_registered = (None, world_registered).
Proof.
  intros ng.
  assert (H : run (getGateway (ng_id ng)) world_registered <> None
              \/ run (getGatewayByEndpoint (ng_endpoint ng)) world_registered <> None)
    by (right; discriminate).
  split; [exact H|].
  exact (X13_createGateway_refuses_a_taken_id_or_endpoint world_registered ng H).
Defined.


(** X15 on an example. *)
Lemma X15_witness :
  let w := exec (recordResourceValue (signal_at "v1" 1000)) world_registered in
  let nv := signal_at "v2" 2000 in
  let v := ResourceValue.mk "v1" "res-1" "gw-dev1-0" "-71" 1000 0 in
  let row := ResourceValue.mk "v2" "res-1" "gw-dev1-0" "-71" 2000 0 in
  run (getLatestResourceValue (nv_resourceId nv)) w = Some v
  /\ run (recordResourceValue nv) w = Some row
  /\ ResourceValue.timestamp v <= ResourceValue.timestamp row
  /\ option_map ResourceValue.timestamp
       (run (getLatestResourceValue (nv_resourceId nv)) (exec (recordResourceValue nv) w))
     = Some (ResourceValue.timestamp v).
Proof.
  intros w nv v row. split; [reflexivity|]. split; [reflexivity|].
  assert (Hle : ResourceValue.timestamp v <= ResourceValue.timestamp row)
    by (simpl; lia).
  split; [exact Hle|].
  exact (X15_a_newer_value_does_not_move_the_latest_query w nv v row eq_refl eq_refl Hle).
Defined.

(** X16 on an example. *)
Lemma X16_witness :
  let nv := signal_at "v1" 1000 in
  let row := ResourceValue.mk "v1" "res-1" "gw-dev1-0" "-71" 1000 0 in
  run (getLatestResourceValue (nv_resourceId nv)) world_registered = None
  /\ run (recordResourceValue nv) world_registered = Some row
  /\ run (resources.getValue (nv_resourceId nv) (nv_gatewayId nv))
         (exec (recordResourceValue nv) world_registered) = Some row.
Proof.
  intros nv row. split; [reflexivity|]. split; [reflexivity|].
  exact (X16_the_first_value_of_a_resource_is_read_back world_registered nv row
           eq_refl eq_refl).
Defined.


(** X19 on an example. *)
Lemma X19_witness :
  let w := set_clock world_registered 2000 in
  run (commands.create reboot_dev1) w = inr reboot_dev1_row
  /\ run (commands.get (Command.id reboot_dev1_row)) (exec (commands.create reboot_dev1) w)
     = inr reboot_dev1_row
  /\ Command.status reboot_dev1_row = pending
  /\ Command.error reboot_dev1_row = None
  /\ Command.completedAt reboot_dev1_row = None.
Proof.
  intros w. split; [reflexivity|].
  exact (X19_a_created_command_is_read_back w reboot_dev1 reboot_dev1_row eq_refl).
Defined.

(** X20 on an example. *)
Lemma X20_witness :
  let id := "cmd-gw-dev1-0-res-1-2000" in
  let w0 := exec (commands.create reboot_dev1) (set_clock world_registered 2000) in
  let us := [(2500, sent, None); (3000, failed, Some "timeout"); (4000, pending, None)] in
  run (getCommand id) w0 = Some reboot_dev1_row
  /\ exists c',
       run (getCommand id) (exec (updateStatus_all id us) w0) = Some c'
       /\ Command.gatewayId c' = Command.gatewayId reboot_dev1_row
       /\ Command.resourceId c' = Command.resourceId reboot_dev1_row
       /\ Command.commandType c' = Command.commandType reboot_dev1_row
       /\ Command.value c' = Command.value reboot_dev1_row
       /\ Command.createdAt c' = Command.createdAt reboot_dev1_row
       /\ (Command.completedAt reboot_dev1_row <> None -> Command.completedAt c' <> None)
       /\ (Command.error reboot_dev1_row <> None -> Command.error c' <> None).
Proof.
  intros id w0 us. split; [reflexivity|].
  exact (X20_updates_keep_the_command_and_never_clear_completedAt_or_error w0 id
           reboot_dev1_row us eq_refl).
Defined.


(** X22 on an example. *)
Lemma X22_witness :
  let a := offline_alert "alert-1" in
  let row := offline_alert_row "alert-1" 1000 in
  let w' := exec (createAlert a) world_deregistered in
  run (createAlert a) world_deregistered = Some row
  /\ Alert.isResolved row = false
  /\ In row (run (alertsRouter.list (Some (na_gatewayId a)) (Some true)) w')
  /\ In row (run (alertsRouter.list (Some (na_gatewayId a)) None) w')
  /\ In row (run (alertsRouter.list None None) w').
Proof.
  intros a row w'. split; [reflexivity|].
  exact (X22_a_created_alert_is_listed world_deregistered a row eq_refl).
Defined.

(** X23 on an example. *)
Lemma X23_witness :
  let w := set_clock (exec (createAlert (offline_alert "alert-1")) world_deregistered)
                     2000 in
  let a := offline_alert_row "alert-1" 1000 in
  let w' := exec (alertsRouter.resolve "alert-1") w in
  alertRow "alert-1" w = Some a
  /\ (forall gatewayId x,
        In x (run (alertsRouter.list gatewayId (Some true)) w') -> Alert.id x <> "alert-1")
  /\ In (apply_resolve (clock w) a) (run (alertsRouter.list None None) w').
Proof.
  intros w a w'. split; [reflexivity|].
  exact (X23_a_resolved_alert_leaves_the_unresolved_list_only w "alert-1" a eq_refl).
Defined.

(** The stand-in for bcrypt verifies a password against its hash. *)
Lemma plain_bcrypt_verifies (password : string) (n : nat) :
  plain_compare password (plain_hash password n) = true.
Proof. apply String.eqb_refl. Defined.

(** X26 on an example. *)
Lemma X26_witness :
  let aw' := deactivateUser (User.id admin_row) accounts_world in
  getUserByUsername "admin" accounts_world = Some admin_row
  /\ authenticateUser plain_compare "admin" "correct horse" aw' = (None, aw')
  /\ forall u, In u (listUsers aw') -> User.id u <> User.id admin_row.
Proof.
  intros aw'. split; [reflexivity|].
  exact (X26_a_deactivated_user_cannot_sign_in plain_compare "admin" "correct horse"
           accounts_world admin_row eq_refl).
Defined.

(** X27 on an example. *)
Lemma X27_witness :
  let r := changeUsername "admin-00c0ffee00c0ffee" "root" accounts_world in
  database (world accounts_world) = Some emptyTables
  /\ find (fun u => (User.id u =? "admin-00c0ffee00c0ffee")%string) (users accounts_world)
     = Some admin_row
  /\ fst r = true
  /\ getUserByUsername "root" (snd r) = Some (with_username "root" 0 admin_row)
  /\ getUserById "admin-00c0ffee00c0ffee" (snd r)
     = Some (mkAuthUser "admin-00c0ffee00c0ffee" "root" (Some "admin@example.org")).
Proof.
  intros r. split; [reflexivity|]. split; [reflexivity|].
  exact (X27_changeUsername_refuses_a_taken_name "admin-00c0ffee00c0ffee" "root"
           accounts_world emptyTables admin_row eq_refl eq_refl).
Defined.

(** X28 on an example. *)
Lemma X28_witness :
  let r := resetPasswordWithToken plain_hash "admin@example.org" "not-a-token"
                                  "battery staple" accounts_world in
  database (world accounts_world) = Some emptyTables
  /\ find (email_is "admin@example.org") (users accounts_world) = Some admin_row
  /\ getUserByUsername (User.username admin_row) accounts_world = Some admin_row
  /\ User.isActive admin_row = true
  /\ fst r = true
  /\ fst (authenticateUser plain_compare (User.username admin_row) "battery staple" (snd r))
     = Some (mkAuthUser (User.id admin_row) (User.username admin_row)
                        (User.email admin_row)).
Proof.
  intros r. do 4 (split; [reflexivity|]).
  exact (X28_any_token_resets_the_password plain_hash plain_compare plain_bcrypt_verifies
           "admin@example.org" "not-a-token" "battery staple" accounts_world emptyTables
           admin_row eq_refl eq_refl eq_refl eq_refl).
Defined.


(** X30 on an example. *)
Lemma X30_witness :
  let r := changePassword plain_hash plain_compare "admin-00c0ffee00c0ffee"
                          "correct horse" "battery staple" accounts_world in
  database (world accounts_world) = Some emptyTables
  /\ find (fun u => (User.id u =? "admin-00c0ffee00c0ffee")%string) (users accounts_world)
     = Some admin_row
  /\ getUserByUsername (User.username admin_row) accounts_world = Some admin_row
  /\ User.isActive admin_row = true
  /\ fst r = true
  /\ fst (authenticateUser plain_compare (User.username admin_row) "battery staple" (snd r))
     = Some (mkAuthUser (User.id admin_row) (User.username admin_row)
                        (User.email admin_row)).
Proof.
  intros r. do 4 (split; [reflexivity|]).
  exact (X30_changePassword_needs_the_current_password plain_hash plain_compare
           plain_bcrypt_verifies "admin-00c0ffee00c0ffee" "correct horse" "battery staple"
           accounts_world emptyTables admin_row eq_refl eq_refl eq_refl eq_refl).
Defined.
